(** * ldap_searcher: the batch directory lookup of [LDAPSearcherApp]

    A shallow embedding of [src/ldap_searcher.py]: the two methods that
    carry the logic of the application, [validate_search_parameters] and
    [perform_ldap_search], together with the Python string methods they
    call ([str.strip], [str.splitlines], [str.split], [str.join]).

    Widgets are modelled by their text content, message boxes and the
    calls made on the ldap3 connection by a chronological trace of
    events, and the directory service by a record giving the outcome of
    the bind and of every search. *)

From Stdlib Require Import String Ascii NArith Bool List Lia.
Import ListNotations.

Set Implicit Arguments.
Local Open Scope N_scope.

(** ** Python strings *)

(** A Python [str] is a sequence of Unicode code points. *)
Definition char := N.
Definition str := list char.

(** [py "uid"] is the [str] written with the given ASCII literal. *)
Definition py (s : string) : str :=
  map N_of_ascii (list_ascii_of_string s).

Fixpoint str_eqb (a b : str) : bool :=
  match a, b with
  | [], [] => true
  | x :: a', y :: b' => N.eqb x y && str_eqb a' b'
  | _, _ => false
  end.

(** [ch.isspace()]: the code points CPython's [str.strip()] removes. *)
Definition isspace (c : char) : bool :=
  ((9 <=? c) && (c <=? 13)) || ((28 <=? c) && (c <=? 32))
  || (c =? 133) || (c =? 160) || (c =? 5760)
  || ((8192 <=? c) && (c <=? 8202))
  || (c =? 8232) || (c =? 8233) || (c =? 8239) || (c =? 8287)
  || (c =? 12288).

Definition LF : char := 10.
Definition CR : char := 13.

(** The line boundaries of [str.splitlines()]: LF, CR, VT, FF, FS, GS,
    RS, NEL, LS and PS (CR LF counts as one boundary). *)
Definition is_linebreak (c : char) : bool :=
  ((10 <=? c) && (c <=? 13)) || ((28 <=? c) && (c <=? 30))
  || (c =? 133) || (c =? 8232) || (c =? 8233).

Fixpoint lstrip (s : str) : str :=
  match s with
  | c :: r => if isspace c then lstrip r else s
  | [] => []
  end.

Definition rstrip (s : str) : str := rev (lstrip (rev s)).

(** [s.strip()] *)
Definition strip (s : str) : str := rstrip (lstrip s).

(** [s.splitlines()]: the lines of [s] without their boundaries; a
    boundary at the very end opens no further line. *)
Fixpoint splitlines (s : str) : list str :=
  match s with
  | [] => []
  | c :: r =>
      if is_linebreak c then
        [] :: (if c =? CR
               then match r with
                    | d :: r' => if d =? LF then splitlines r' else splitlines r
                    | [] => []
                    end
               else splitlines r)
      else match splitlines r with
           | [] => [[c]]
           | l :: ls => (c :: l) :: ls
           end
  end.

(** [s.split(sep)] for a one-character separator: never empty. *)
Fixpoint split (sep : char) (s : str) : list str :=
  match s with
  | [] => [[]]
  | c :: r =>
      if c =? sep then [] :: split sep r
      else match split sep r with
           | [] => [[c]]
           | l :: ls => (c :: l) :: ls
           end
  end.

(** [sep.join(parts)] *)
Fixpoint join (sep : str) (parts : list str) : str :=
  match parts with
  | [] => []
  | [p] => p
  | p :: ps => p ++ sep ++ join sep ps
  end.

Definition comma : char := 44.

(** ** Dictionaries of the properties file *)

(** [read_properties_file] returns a dict of sections, each a dict of
    options; only [dict.get] is used on them. *)
Definition dict (V : Type) := list (str * V).

Fixpoint dict_get {V} (d : dict V) (k : str) : option V :=
  match d with
  | [] => None
  | (k', v) :: d' => if str_eqb k' k then Some v else dict_get d' k
  end.

(** [d.get(k, {})] *)
Definition dict_get_section {V} (d : dict (dict V)) (k : str) : dict V :=
  match dict_get d k with
  | Some s => s
  | None => []
  end.

(** ** The directory service and the user interface *)

(** An exception: its class name and its message. *)
Record exn := Exn { exn_class : str; exn_message : str }.

(** A matched entry is any object that can be subscripted with an
    attribute name; [result attr] is the outcome of [str(result[attr])]:
    the cell text, or the exception the lookup raises. *)
Definition Entry := str -> exn + str.

(** An entry as ldap3 hands it back for a search made with the default
    [return_empty_attributes=True] of [Connection] (line 200 passes no
    other), subscripted with one of the attributes asked for; the
    application uses no other name (lines 208 and 213).  [held] gives the
    text of the attributes the directory holds for the entry; an
    attribute asked for and not held is on the entry with no value, and
    its [str] is that of the empty list of values. *)
Definition ldap3_entry (held : dict str) : Entry :=
  fun attr =>
    match dict_get held attr with
    | Some v => inr v
    | None => inr (py "[]")
    end.

(** The test double of [test_perform_ldap_search]: every subscript
    returns the same value. *)
Definition mock_entry (v : str) : Entry := fun _ => inr v.

(** What the application does to the outside world, in order. *)
Inductive event :=
| ShowWarning (title message : str)
| ShowError (title message : str)
| Bind (server user password : option str)
| Search (search_base search_filter : str) (attributes : list str)
| Unbind.

(** The directory as the application sees it through ldap3:
    [auto_bind] is the outcome of [Server(...)] followed by
    [Connection(..., auto_bind=True)] ([None]: bound), [entries] the
    outcome of [conn.search(...)] followed by reading [conn.entries],
    and [unbind] the outcome of [conn.unbind()] ([None]: it returns). *)
Record Directory := {
  auto_bind : option str -> option str -> option str -> option exn;
  entries : str -> str -> list str -> exn + list Entry;
  unbind : option exn
}.

(** The widgets read or written by the search, and the event trace. *)
Record App := {
  search_field : str;
  search_base : str;
  search_attributes : str;
  left_textbox : str;
  right_textbox : str;
  csv_export_button : bool;
  ldap_server_properties : dict (dict str);
  trace : list event
}.

Definition set_right_textbox (t : str) (a : App) : App :=
  {| search_field := search_field a; search_base := search_base a;
     search_attributes := search_attributes a;
     left_textbox := left_textbox a; right_textbox := t;
     csv_export_button := csv_export_button a;
     ldap_server_properties := ldap_server_properties a;
     trace := trace a |}.

Definition set_csv_export_button (b : bool) (a : App) : App :=
  {| search_field := search_field a; search_base := search_base a;
     search_attributes := search_attributes a;
     left_textbox := left_textbox a; right_textbox := right_textbox a;
     csv_export_button := b;
     ldap_server_properties := ldap_server_properties a;
     trace := trace a |}.

Definition set_trace (t : list event) (a : App) : App :=
  {| search_field := search_field a; search_base := search_base a;
     search_attributes := search_attributes a;
     left_textbox := left_textbox a; right_textbox := right_textbox a;
     csv_export_button := csv_export_button a;
     ldap_server_properties := ldap_server_properties a;
     trace := t |}.

(** ** Statements that change the application or raise *)

Definition M (A : Type) : Type := App -> (exn + A) * App.

Definition ret {A} (x : A) : M A := fun a => (inr x, a).

Definition bind {A B} (m : M A) (k : A -> M B) : M B :=
  fun a =>
    match m a with
    | (inr x, a') => k x a'
    | (inl e, a') => (inl e, a')
    end.

Definition raise {A} (e : exn) : M A := fun a => (inl e, a).

(** [try: body except Exception as e: handler(e)] *)
Definition try_except (body : M unit) (handler : exn -> M unit) : M unit :=
  fun a =>
    match body a with
    | (inr x, a') => (inr x, a')
    | (inl e, a') => handler e a'
    end.

Declare Scope py_scope.
Delimit Scope py_scope with stmt.
Notation "x <- m ;; k" := (bind m (fun x => k))
  (at level 61, m at next level, right associativity) : py_scope.
Notation "m ;; k" := (bind m (fun _ => k))
  (at level 61, right associativity) : py_scope.
Local Open Scope py_scope.

Definition emit (ev : event) : M unit :=
  fun a => (inr tt, set_trace (trace a ++ [ev]) a).

(** [for x in xs: body(x)] *)
Fixpoint for_each {A} (xs : list A) (body : A -> M unit) : M unit :=
  match xs with
  | [] => ret tt
  | x :: xs' => body x ;; for_each xs' body
  end.

(** [widget.get("1.0", tk.END)]: Tk hands the text back with the newline
    that ends every text widget. *)
Definition text_get (content : str) : str := content ++ [LF].

(** [self.right_textbox.delete("1.0", tk.END)] *)
Definition right_textbox_delete : M unit :=
  fun a => (inr tt, set_right_textbox [] a).

(** [self.right_textbox.insert(tk.END, s)] *)
Definition right_textbox_insert (s : str) : M unit :=
  fun a => (inr tt, set_right_textbox (right_textbox a ++ s) a).

(** [show_warning] and [show_error] *)
Definition show_warning (title message : str) : M unit :=
  emit (ShowWarning title message).

Definition show_error (title : str) (e : exn) : M unit :=
  emit (ShowError title (exn_class e ++ py ": " ++ exn_message e)).

(** ** [validate_search_parameters] *)

Record params := {
  field : str;
  base : str;
  attributes : list str
}.

Definition field_placeholder : str := py "LDAP field to search".
Definition base_placeholder : str := py "LDAP search base".
Definition attributes_placeholder : str :=
  py "LDAP attributes to search (separated by commas)".

(** [not x] for a string or a list: the empty sequence is false. *)
Definition is_empty {A} (x : list A) : bool :=
  match x with [] => true | _ => false end.

Definition validate_search_parameters : M (option params) :=
  fun a =>
    let field := search_field a in
    let base := search_base a in
    let attributes := search_attributes a in
    (if is_empty field || str_eqb field field_placeholder then
       show_warning (py "Invalid Input") (py "Search field is required.") ;;
       ret None
     else if is_empty base || str_eqb base base_placeholder then
       show_warning (py "Invalid Input") (py "Search base is required.") ;;
       ret None
     else if is_empty attributes
             || str_eqb attributes attributes_placeholder then
       show_warning (py "Invalid Input")
                    (py "At least one search attribute is required.") ;;
       ret None
     else
       let attributes := field ++ [comma] ++ attributes in
       ret (Some {| field := field; base := base;
                    attributes := map strip (split comma attributes) |})) a.

(** ** [perform_ldap_search] *)

(** The filter of line 206: [f"({field}={entry})"]. *)
Definition search_filter (field entry : str) : str :=
  py "(" ++ field ++ py "=" ++ entry ++ py ")".

(** [Server(...)] and [Connection(..., auto_bind=True)] *)
Definition connect (d : Directory) (server user password : option str)
  : M unit :=
  emit (Bind server user password) ;;
  match auto_bind d server user password with
  | None => ret tt
  | Some e => raise e
  end.

(** [conn.search(...)], then [conn.entries] *)
Definition conn_search (d : Directory) (search_base search_filter : str)
  (attributes : list str) : M (list Entry) :=
  emit (Search search_base search_filter attributes) ;;
  match entries d search_base search_filter attributes with
  | inr rs => ret rs
  | inl e => raise e
  end.

Definition conn_unbind (d : Directory) : M unit :=
  emit Unbind ;;
  match unbind d with
  | None => ret tt
  | Some e => raise e
  end.

(** [str(result[attr]) for attr in attributes], consumed by [join]:
    the cells in order, up to the first lookup that raises. *)
Fixpoint cells (result : Entry) (attributes : list str) : exn + list str :=
  match attributes with
  | [] => inr []
  | attr :: rest =>
      match result attr with
      | inl e => inl e
      | inr v =>
          match cells result rest with
          | inl e => inl e
          | inr vs => inr (v :: vs)
          end
      end
  end.

Definition lift {A} (r : exn + A) : M A :=
  match r with
  | inr x => ret x
  | inl e => raise e
  end.

Definition semicolon : str := py ";".

(** The rendering of one row of the table: [";".join(row) + "\n"]. *)
Definition row_line (row : list str) : str := join semicolon row ++ [LF].

(** The lines the search loop runs over (line 205). *)
Definition identifiers (a : App) : list str :=
  splitlines (strip (text_get (left_textbox a))).

(** The body of the [for entry in ...] loop, lines 206 to 214. *)
Definition search_entry (d : Directory) (p : params) (entry : str)
  : M unit :=
  let search_filter := search_filter (field p) entry in
  results <- conn_search d (base p) search_filter (attributes p) ;;
  if negb (is_empty results) then
    for_each results (fun result =>
      row <- lift (cells result (attributes p)) ;;
      right_textbox_insert (row_line row))
  else ret tt.

Definition perform_ldap_search (d : Directory) : M unit :=
  search_params <- validate_search_parameters ;;
  match search_params with
  | None => ret tt
  | Some search_params =>
      right_textbox_delete ;;
      try_except
        (fun a =>
           (let server_info :=
              dict_get_section (ldap_server_properties a) (py "server") in
            let credentials :=
              dict_get_section (ldap_server_properties a) (py "credentials") in
            connect d (dict_get server_info (py "server"))
                      (dict_get credentials (py "username"))
                      (dict_get credentials (py "password")) ;;
            let attributes := attributes search_params in
            right_textbox_insert (row_line attributes) ;;
            (fun a' => for_each (identifiers a')
                                (search_entry d search_params) a') ;;
            conn_unbind d ;;
            (fun a' => (inr tt, set_csv_export_button true a'))) a)
        (fun e => show_error (py "LDAP Search Error") e)
  end.

(** The application after the "LDAP Search" button has been pressed. *)
Definition run (d : Directory) (a : App) : App :=
  snd (perform_ldap_search d a).

(** ** Observations on a trace *)

(** The filters of the searches issued, in order. *)
Fixpoint searches (t : list event) : list str :=
  match t with
  | [] => []
  | Search _ f _ :: t' => f :: searches t'
  | _ :: t' => searches t'
  end.

(** How many times the session was opened, and closed. *)
Fixpoint binds (t : list event) : nat :=
  match t with
  | [] => O
  | Bind _ _ _ :: t' => S (binds t')
  | _ :: t' => binds t'
  end.

Fixpoint unbinds (t : list event) : nat :=
  match t with
  | [] => O
  | Unbind :: t' => S (unbinds t')
  | _ :: t' => unbinds t'
  end.

(** The outcome of the bind with the properties loaded in the
    application (lines 197 to 200). *)
Definition login (d : Directory) (a : App) : option exn :=
  auto_bind d
    (dict_get (dict_get_section (ldap_server_properties a) (py "server"))
              (py "server"))
    (dict_get (dict_get_section (ldap_server_properties a) (py "credentials"))
              (py "username"))
    (dict_get (dict_get_section (ldap_server_properties a) (py "credentials"))
              (py "password")).

Definition bind_event (a : App) : event :=
  Bind
    (dict_get (dict_get_section (ldap_server_properties a) (py "server"))
              (py "server"))
    (dict_get (dict_get_section (ldap_server_properties a) (py "credentials"))
              (py "username"))
    (dict_get (dict_get_section (ldap_server_properties a) (py "credentials"))
              (py "password")).

(** What [validate_search_parameters] returns on the form as filled. *)
Definition parameters (a : App) : option params :=
  match fst (validate_search_parameters a) with
  | inr r => r
  | inl _ => None
  end.

(** The search event of one identifier line. *)
Definition search_event (p : params) (entry : str) : event :=
  Search (base p) (search_filter (field p) entry) (attributes p).

Definition error_event (e : exn) : event :=
  ShowError (py "LDAP Search Error")
            (exn_class e ++ py ": " ++ exn_message e).

(** The text of a table: one line per row. *)
Definition render (rows : list (list str)) : str :=
  concat (map row_line rows).

(** ** The loop as a function of its input

    The effect of the search loop summed up: the text added to the
    results box, the events added to the trace, and the exception that
    ended it, if any. *)

Definition add_output (text : str) (evs : list event) (a : App) : App :=
  set_trace (trace a ++ evs) (set_right_textbox (right_textbox a ++ text) a).

Definition outcome (e : option exn) : exn + unit :=
  match e with
  | None => inr tt
  | Some e => inl e
  end.

(** The rows written for the entries of one search, up to the first
    entry whose projection raises. *)
Fixpoint project_all (results : list Entry) (attrs : list str)
  : list (list str) * option exn :=
  match results with
  | [] => ([], None)
  | result :: rest =>
      match cells result attrs with
      | inl e => ([], Some e)
      | inr row =>
          let (rows, e) := project_all rest attrs in (row :: rows, e)
      end
  end.

(** The rows written for one identifier line. *)
Definition lookup (d : Directory) (p : params) (entry : str)
  : list (list str) * option exn :=
  match entries d (base p) (search_filter (field p) entry) (attributes p) with
  | inl e => ([], Some e)
  | inr results => project_all results (attributes p)
  end.

(** The rows written and the lines searched by the whole loop. *)
Fixpoint batch (d : Directory) (p : params) (ids : list str)
  : list (list str) * list str * option exn :=
  match ids with
  | [] => ([], [], None)
  | entry :: rest =>
      match lookup d p entry with
      | (rows, Some e) => (rows, [entry], Some e)
      | (rows, None) =>
          let '(rows', searched, e) := batch d p rest in
          (rows ++ rows', entry :: searched, e)
      end
  end.

(** [answers d p entry rows]: the search for [entry] returns entries,
    and projecting them one by one, in the order returned, gives
    [rows]; nothing raises. *)
Definition answers (d : Directory) (p : params) (entry : str)
  (rows : list (list str)) : Prop :=
  exists results,
    entries d (base p) (search_filter (field p) entry) (attributes p)
    = inr results
    /\ map (fun result => cells result (attributes p)) results
       = map inr rows.

(** ** The filter grammar of the protocol

    Follows the specification, section 4.2: the characters reserved by
    the filter grammar are the parentheses, the backslash, the asterisk
    and the null character; each is escaped as a backslash and its two
    hexadecimal digits. *)

Definition reserved (c : char) : bool :=
  (c =? 40) || (c =? 41) || (c =? 92) || (c =? 42) || (c =? 0).

Definition spec_escape_char (c : char) : str :=
  if c =? 40 then py "\28"
  else if c =? 41 then py "\29"
  else if c =? 92 then py "\5c"
  else if c =? 42 then py "\2a"
  else if c =? 0 then py "\00"
  else [c].

Definition spec_escape (value : str) : str := flat_map spec_escape_char value.

(** [buildFilter] as the specification words it. *)
Definition spec_buildFilter (field value : str) : str :=
  py "(" ++ field ++ py "=" ++ spec_escape value ++ py ")".

(** The identifiers as the specification words them, section 3: one per
    line, trimmed, empty lines skipped. *)
Definition spec_identifiers (text : str) : list str :=
  filter (fun l => negb (is_empty l)) (map strip (splitlines text)).

(** ** A directory and an application to run examples on *)

Module Example.

Definition properties : dict (dict str) :=
  [ (py "server", [(py "server", py "ldap.example.com")]);
    (py "credentials", [(py "username", py "u"); (py "password", py "p")]) ].

(** The form filled in with the given texts, nothing searched yet. *)
Definition app (field base attributes : string)
  (lines : list str)
  : App :=
  {| search_field := py field; search_base := py base;
     search_attributes := py attributes;
     left_textbox := join [LF] lines; right_textbox := [];
     csv_export_button := false;
     ldap_server_properties := properties;
     trace := [] |}.

Definition jdoe : Entry :=
  ldap3_entry [ (py "uid", py "jdoe"); (py "cn", py "John Doe");
                  (py "mail", py "jdoe@example.com") ].

Definition asmith : Entry :=
  ldap3_entry [ (py "uid", py "asmith"); (py "cn", py "Ann Smith");
                  (py "mail", py "asmith@example.com") ].

(** An entry for which the directory holds no [mail]: asked for
    [mail], it carries the attribute without a value. *)
Definition nomail : Entry :=
  ldap3_entry [ (py "uid", py "guest"); (py "cn", py "Guest") ].

Definition timeout : exn := Exn (py "LDAPResponseTimeoutError") (py "no response").

(** A directory that matches attribute values without regard to case,
    as [uid] is matched, and that does not answer a search for [slow]. *)
Definition directory : Directory :=
  {| auto_bind := fun _ _ _ => None;
     entries := fun _ f _ =>
       if str_eqb f (py "(uid=jdoe)") || str_eqb f (py "(uid=JDOE)")
       then inr [jdoe]
       else if str_eqb f (py "(uid=asmith)") then inr [asmith]
       else if str_eqb f (py "(uid=guest)") then inr [nomail]
       else if str_eqb f (py "(uid=slow)") then inl timeout
       else inr [];
     unbind := None |}.

End Example.

(** ** The other handlers of the window

    The entries with a placeholder, the loading of the identifier file,
    the export of the results and the choice of the properties file.
    File dialogs are modelled by the path they return (empty when the
    user cancels), and the file system by a record of outcomes. *)

Definition set_left_textbox (t : str) (a : App) : App :=
  {| search_field := search_field a; search_base := search_base a;
     search_attributes := search_attributes a;
     left_textbox := t; right_textbox := right_textbox a;
     csv_export_button := csv_export_button a;
     ldap_server_properties := ldap_server_properties a;
     trace := trace a |}.

Definition set_ldap_server_properties (props : dict (dict str)) (a : App)
  : App :=
  {| search_field := search_field a; search_base := search_base a;
     search_attributes := search_attributes a;
     left_textbox := left_textbox a; right_textbox := right_textbox a;
     csv_export_button := csv_export_button a;
     ldap_server_properties := props;
     trace := trace a |}.

(** The [<FocusIn>] handler of [add_placeholder_entry] and
    [set_placeholder]: an entry showing its placeholder is emptied. *)
Definition focus_in (placeholder text : str) : str :=
  if str_eqb text placeholder then [] else text.

(** The [<FocusOut>] handler: the placeholder is inserted at index 0 of
    an empty entry. *)
Definition focus_out (placeholder text : str) : str :=
  if str_eqb text [] then placeholder ++ text else text.

(** What the handlers other than the search do to the outside world. *)
Inductive desk_event :=
| OpenRead (path : str)
| OpenWrite (path : str)
| WriteRow (row : list str)
| ShowInfo (title message : str).

(** [open(path, "r")] followed by [file.read()]. *)
Inductive read_outcome :=
| OpenFails (e : exn)
| ReadFails (e : exn)
| Contents (s : str).

(** The file system: reading a text file, opening a file for writing,
    writing the row of the given index to it with [writer.writerow],
    closing it at the end of the [with] block, and the sections and
    options [configparser] finds in a file. *)
Record Disk := {
  read_file : str -> read_outcome;
  open_write : str -> option exn;
  write_row : str -> nat -> list str -> option exn;
  close_write : str -> option exn;
  config_items : str -> exn + dict (dict str)
}.

(** The window: the widgets of the search, the state of the
    "LDAP Search" button and the file events so far. *)
Record Window := {
  gui : App;
  ldap_search_button : bool;
  desk : list desk_event
}.

Definition set_gui (a : App) (w : Window) : Window :=
  {| gui := a; ldap_search_button := ldap_search_button w; desk := desk w |}.

Definition set_ldap_search_button (b : bool) (w : Window) : Window :=
  {| gui := gui w; ldap_search_button := b; desk := desk w |}.

Definition log_desk (evs : list desk_event) (w : Window) : Window :=
  {| gui := gui w; ldap_search_button := ldap_search_button w;
     desk := desk w ++ evs |}.

(** The window as [__init__] builds it: every entry shows its
    placeholder, both buttons are disabled, no properties are loaded. *)
Definition init : Window :=
  {| gui := {| search_field := field_placeholder;
               search_base := base_placeholder;
               search_attributes := attributes_placeholder;
               left_textbox := []; right_textbox := [];
               csv_export_button := false;
               ldap_server_properties := [];
               trace := [] |};
     ldap_search_button := false;
     desk := [] |}.

Definition show_error_in (title : str) (e : exn) (w : Window) : Window :=
  set_gui (snd (show_error title e (gui w))) w.

(** [load_csv], with the path the file dialog returned. *)
Definition load_csv (disk : Disk) (csv_file : str) (w : Window) : Window :=
  if negb (is_empty csv_file) then
    let w := log_desk [OpenRead csv_file] w in
    match read_file disk csv_file with
    | OpenFails e => show_error_in (py "Error loading CSV") e w
    | ReadFails e =>
        show_error_in (py "Error loading CSV") e
          (set_gui (set_left_textbox [] (gui w)) w)
    | Contents s => set_gui (set_left_textbox ([] ++ strip s) (gui w)) w
    end
  else w.

(** [for line in lines: writer.writerow([line])]: the calls made, and
    the exception that ended the loop, if any. *)
Fixpoint writerows (disk : Disk) (path : str) (n : nat) (lines : list str)
  : list desk_event * option exn :=
  match lines with
  | [] => ([], None)
  | line :: rest =>
      match write_row disk path n [line] with
      | Some e => ([WriteRow [line]], Some e)
      | None =>
          let (evs, e) := writerows disk path (S n) rest in
          (WriteRow [line] :: evs, e)
      end
  end.

(** [export_csv], with the path the file dialog returned.  An exception
    raised while the file is closed replaces the one that ended the
    block. *)
Definition export_csv (disk : Disk) (csv_file : str) (w : Window) : Window :=
  if negb (is_empty csv_file) then
    let content := strip (text_get (right_textbox (gui w))) in
    if negb (is_empty content) then
      let w := log_desk [OpenWrite csv_file] w in
      match open_write disk csv_file with
      | Some e => show_error_in (py "Error exporting CSV") e w
      | None =>
          let (evs, r) := writerows disk csv_file O (splitlines content) in
          let w := log_desk evs w in
          match close_write disk csv_file, r with
          | Some e, _ => show_error_in (py "Error exporting CSV") e w
          | None, Some e => show_error_in (py "Error exporting CSV") e w
          | None, None =>
              log_desk [ShowInfo (py "Success")
                                 (py "The file was successfully saved.")] w
          end
      end
    else
      set_gui (snd (show_warning (py "Empty Content")
                                 (py "The results textbox is empty.")
                                 (gui w))) w
  else w.

(** [read_properties_file]: the parsed sections, or the empty dict and
    an error box. *)
Definition read_properties_file (disk : Disk) (file : str) (w : Window)
  : dict (dict str) * Window :=
  match config_items disk file with
  | inr props => (props, w)
  | inl e =>
      ([], set_gui (snd (emit (ShowError (py "Error")
                                 (py "Failed to read properties file: "
                                  ++ exn_message e))
                              (gui w))) w)
  end.

(** [select_ldap_server], with the path the file dialog returned. *)
Definition select_ldap_server (disk : Disk) (file : str) (w : Window)
  : Window :=
  if negb (is_empty file) then
    let (props, w) := read_properties_file disk file w in
    set_ldap_search_button true
      (set_gui (set_ldap_server_properties props (gui w)) w)
  else w.

(** A click on "LDAP Search" or on "Export CSV": a disabled button does
    not call its command. *)
Definition click_search (d : Directory) (w : Window) : Window :=
  if ldap_search_button w then set_gui (run d (gui w)) w else w.

Definition click_export (disk : Disk) (csv_file : str) (w : Window)
  : Window :=
  if csv_export_button (gui w) then export_csv disk csv_file w else w.

(** The rows handed to [writer.writerow], in order. *)
Fixpoint written (t : list desk_event) : list (list str) :=
  match t with
  | [] => []
  | WriteRow row :: t' => row :: written t'
  | _ :: t' => written t'
  end.

(** How many times the success box of the export was shown, and the
    files opened for writing. *)
Fixpoint infos (t : list desk_event) : nat :=
  match t with
  | [] => O
  | ShowInfo _ _ :: t' => S (infos t')
  | _ :: t' => infos t'
  end.

Fixpoint opened_for_writing (t : list desk_event) : list str :=
  match t with
  | [] => []
  | OpenWrite path :: t' => path :: opened_for_writing t'
  | _ :: t' => opened_for_writing t'
  end.

(** ** The window in use

    What the user can do: edit the text of a widget, or click one of the
    four buttons (the file dialog then returns a path, or the empty path
    when cancelled). *)

Definition set_search_field (t : str) (a : App) : App :=
  {| search_field := t; search_base := search_base a;
     search_attributes := search_attributes a;
     left_textbox := left_textbox a; right_textbox := right_textbox a;
     csv_export_button := csv_export_button a;
     ldap_server_properties := ldap_server_properties a;
     trace := trace a |}.

Definition set_search_base (t : str) (a : App) : App :=
  {| search_field := search_field a; search_base := t;
     search_attributes := search_attributes a;
     left_textbox := left_textbox a; right_textbox := right_textbox a;
     csv_export_button := csv_export_button a;
     ldap_server_properties := ldap_server_properties a;
     trace := trace a |}.

Definition set_search_attributes (t : str) (a : App) : App :=
  {| search_field := search_field a; search_base := search_base a;
     search_attributes := t;
     left_textbox := left_textbox a; right_textbox := right_textbox a;
     csv_export_button := csv_export_button a;
     ldap_server_properties := ldap_server_properties a;
     trace := trace a |}.

Inductive action :=
| EditField (text : str)
| EditBase (text : str)
| EditAttributes (text : str)
| EditIdentifiers (text : str)
| EditResults (text : str)
| ClickLoadCsv (disk : Disk) (path : str)
| ClickExportCsv (disk : Disk) (path : str)
| ClickSelectLdapServer (disk : Disk) (path : str)
| ClickLdapSearch (d : Directory).

Definition step (w : Window) (act : action) : Window :=
  match act with
  | EditField text => set_gui (set_search_field text (gui w)) w
  | EditBase text => set_gui (set_search_base text (gui w)) w
  | EditAttributes text => set_gui (set_search_attributes text (gui w)) w
  | EditIdentifiers text => set_gui (set_left_textbox text (gui w)) w
  | EditResults text => set_gui (set_right_textbox text (gui w)) w
  | ClickLoadCsv disk path => load_csv disk path w
  | ClickExportCsv disk path => click_export disk path w
  | ClickSelectLdapServer disk path => select_ldap_server disk path w
  | ClickLdapSearch d => click_search d w
  end.

(** The window after a sequence of actions on a new window. *)
Definition session (acts : list action) : Window := fold_left step acts init.

(** What every action keeps: no more unbinds than binds; the export
    button active only after an unbind; no bind while the search button
    is disabled; no file opened for writing before an unbind. *)
Definition well_formed (w : Window) : Prop :=
  (unbinds (trace (gui w)) <= binds (trace (gui w)))%nat
  /\ (csv_export_button (gui w) = true ->
      (1 <= unbinds (trace (gui w)))%nat)
  /\ (ldap_search_button w = false -> binds (trace (gui w)) = O)
  /\ (opened_for_writing (desk w) <> [] ->
      (1 <= unbinds (trace (gui w)))%nat).

(** A file system for the examples: [ids.csv] holds two identifiers
    between blank lines, [binary.csv] cannot be decoded, [server.ini] is
    well formed and [broken.ini] is not; every file can be written. *)
Module Files.

Definition disk : Disk :=
  {| read_file := fun path =>
       if str_eqb path (py "ids.csv")
       then Contents (join [LF] [py ""; py "jdoe"; py "asmith"; py ""; py ""])
       else if str_eqb path (py "binary.csv")
       then ReadFails (Exn (py "UnicodeDecodeError") (py "invalid start byte"))
       else OpenFails (Exn (py "FileNotFoundError") path);
     open_write := fun _ => None;
     write_row := fun _ _ _ => None;
     close_write := fun _ => None;
     config_items := fun path =>
       if str_eqb path (py "server.ini") then inr Example.properties
       else inl (Exn (py "MissingSectionHeaderError")
                     (py "File contains no section headers.")) |}.

(** A directory that refuses every bind. *)
Definition unreachable : Directory :=
  {| auto_bind := fun _ _ _ =>
       Some (Exn (py "LDAPSocketOpenError") (py "invalid server address"));
     entries := fun _ _ _ => inr [];
     unbind := None |}.

(** A directory that answers like [Example.directory] and has dropped
    the connection by the time the session is unbound. *)
Definition hangs_up : Directory :=
  {| auto_bind := auto_bind Example.directory;
     entries := entries Example.directory;
     unbind := Some (Exn (py "LDAPSocketSendError") (py "socket closed")) |}.

End Files.

(** * Properties *)

(** ** Strings *)

Lemma str_eqb_eq (a b : str) : str_eqb a b = true <-> a = b.
Proof.
  revert b; induction a as [|x a IH]; intros [|y b]; simpl;
    try (split; [discriminate | discriminate]); try tauto.
  rewrite andb_true_iff, N.eqb_eq, IH.
  split; [intros [-> ->]; reflexivity | intros H; inversion H; auto].
Qed.

Lemma str_eqb_refl (a : str) : str_eqb a a = true.
Proof. apply str_eqb_eq; reflexivity. Qed.

Lemma is_empty_nil {A} (x : list A) : is_empty x = true <-> x = [].
Proof. destruct x; simpl; split; congruence. Qed.

(** [split] never returns the empty list. *)
Lemma split_not_nil (sep : char) (s : str) : split sep s <> [].
Proof.
  destruct s as [|c r]; simpl; [discriminate|].
  destruct (c =? sep); [discriminate|].
  destruct (split sep r); discriminate.
Qed.

(** Splitting at a separator splits the text on either side of it. *)
Lemma split_app (sep : char) (s t : str) :
  split sep (s ++ sep :: t) = split sep s ++ split sep t.
Proof.
  induction s as [|c s IH]; simpl.
  - rewrite N.eqb_refl. reflexivity.
  - destruct (c =? sep); [rewrite IH; reflexivity|].
    rewrite IH.
    pose proof (split_not_nil sep s) as Hne.
    destruct (split sep s); [congruence | reflexivity].
Qed.

(** A text without the separator is a single piece. *)
Lemma split_single (sep : char) (s : str) :
  ~ In sep s -> split sep s = [s].
Proof.
  induction s as [|c s IH]; simpl; intros Hn; [reflexivity|].
  destruct (N.eqb_spec c sep) as [->|_]; [tauto|].
  rewrite IH by tauto. reflexivity.
Qed.

Lemma lstrip_spaces (ws s : str) :
  forallb isspace ws = true -> lstrip (ws ++ s) = lstrip s.
Proof.
  induction ws as [|c ws IH]; simpl; [reflexivity|].
  rewrite andb_true_iff. intros [-> H]. auto.
Qed.

Lemma forallb_rev {A} (f : A -> bool) (l : list A) :
  forallb f (rev l) = forallb f l.
Proof.
  induction l as [|x l IH]; simpl; [reflexivity|].
  rewrite forallb_app, IH. simpl. rewrite andb_true_r. apply andb_comm.
Qed.

Lemma rstrip_spaces (s ws : str) :
  forallb isspace ws = true -> rstrip (s ++ ws) = rstrip s.
Proof.
  intros H. unfold rstrip. rewrite rev_app_distr, lstrip_spaces; auto.
  rewrite forallb_rev. exact H.
Qed.

(** Whitespace before the text is dropped by [strip]. *)
Lemma strip_spaces_l (ws s : str) :
  forallb isspace ws = true -> strip (ws ++ s) = strip s.
Proof. intros H. unfold strip. rewrite lstrip_spaces; auto. Qed.

(** Whitespace after the text is dropped by [strip]. *)
Lemma strip_spaces_r (s ws : str) :
  forallb isspace ws = true -> strip (s ++ ws) = strip s.
Proof.
  intros H. unfold strip. induction s as [|c s IH]; simpl.
  - rewrite <- (app_nil_r ws), lstrip_spaces by exact H. reflexivity.
  - destruct (isspace c); [exact IH|].
    change (c :: s ++ ws) with ((c :: s) ++ ws).
    apply rstrip_spaces; exact H.
Qed.

(** A text of whitespace only strips to the empty text. *)
Lemma strip_blank (ws : str) : forallb isspace ws = true -> strip ws = [].
Proof.
  intros H. rewrite <- (app_nil_r ws), strip_spaces_l by exact H.
  reflexivity.
Qed.

(** The newline Tk appends to the text of a widget does not survive
    [strip]. *)
Lemma strip_text_get (s : str) : strip (text_get s) = strip s.
Proof. apply strip_spaces_r. reflexivity. Qed.

(** ** The cells of a row *)


Lemma cells_inl (result : Entry) (attrs : list str) :
  (exists e, cells result attrs = inl e)
  <-> exists attr e, In attr attrs /\ result attr = inl e.
Proof.
  induction attrs as [|attr attrs IH]; simpl.
  - split; [intros [e H]; discriminate | intros (a & e & [] & _)].
  - destruct (result attr) as [e|v] eqn:Hv.
    + split; [intros _; exists attr, e; auto | intros _; exists e; auto].
    + destruct (cells result attrs) as [e|vs] eqn:Hc.
      * split; [|intros _; exists e; auto].
        intros _. destruct (proj1 IH) as (a & e' & Hin & Ha); [eauto|].
        exists a, e'; auto.
      * split; [intros [e H]; discriminate|].
        intros (a & e & [<-|Hin] & Ha); [congruence|].
        destruct (proj2 IH) as [e' He']; [eauto | discriminate].
Qed.

(** ** The search loop *)

Lemma add_output_nil (a : App) : add_output [] [] a = a.
Proof.
  destruct a; unfold add_output, set_trace, set_right_textbox; simpl.
  rewrite !app_nil_r. reflexivity.
Qed.

Lemma add_output_add_output (t1 t2 : str) (e1 e2 : list event) (a : App) :
  add_output t2 e2 (add_output t1 e1 a) = add_output (t1 ++ t2) (e1 ++ e2) a.
Proof.
  unfold add_output, set_trace, set_right_textbox; simpl.
  rewrite !app_assoc. reflexivity.
Qed.

Lemma add_output_events (evs : list event) (a : App) :
  add_output [] evs a = set_trace (trace a ++ evs) a.
Proof.
  destruct a; unfold add_output, set_trace, set_right_textbox; simpl.
  rewrite app_nil_r. reflexivity.
Qed.

Lemma render_app (r1 r2 : list (list str)) :
  render (r1 ++ r2) = render r1 ++ render r2.
Proof. unfold render. rewrite map_app, concat_app. reflexivity. Qed.

(** The inner loop writes the rows of [project_all] and raises what it
    raises. *)
Lemma write_rows (results : list Entry) (attrs : list str) (a : App) :
  for_each results
    (fun result =>
       row <- lift (cells result attrs) ;;
       right_textbox_insert (row_line row)) a
  = (outcome (snd (project_all results attrs)),
     add_output (render (fst (project_all results attrs))) [] a).
Proof.
  revert a; induction results as [|result rest IH]; intros a; simpl.
  - unfold ret. rewrite add_output_nil. reflexivity.
  - unfold bind at 1. unfold bind at 1.
    destruct (cells result attrs) as [e|row]; simpl.
    + unfold raise. rewrite add_output_nil. reflexivity.
    + rewrite IH.
      destruct (project_all rest attrs) as [rows e]; simpl.
      f_equal. unfold render; simpl. fold (render rows).
      unfold add_output, set_trace, set_right_textbox; simpl.
      rewrite !app_nil_r, !app_assoc. reflexivity.
Qed.

(** One pass of the outer loop issues one search and writes the rows of
    [lookup]. *)
Lemma search_entry_eq (d : Directory) (p : params) (entry : str) (a : App) :
  search_entry d p entry a
  = (outcome (snd (lookup d p entry)),
     add_output (render (fst (lookup d p entry))) [search_event p entry] a).
Proof.
  unfold search_entry, lookup, conn_search, search_event.
  unfold bind at 1. unfold bind at 1. unfold emit at 1.
  destruct (entries d (base p) (search_filter (field p) entry) (attributes p))
    as [e|results]; simpl.
  - unfold raise. rewrite <- add_output_events. reflexivity.
  - unfold ret at 1. rewrite <- add_output_events.
    destruct results as [|result rest].
    + reflexivity.
    + cbv [is_empty negb]. rewrite write_rows, add_output_add_output.
      reflexivity.
Qed.

(** The outer loop issues the searches of [batch], writes its rows and
    raises what it raises. *)
Lemma for_each_batch (d : Directory) (p : params) (ids : list str) (a : App) :
  for_each ids (search_entry d p) a
  = (outcome (snd (batch d p ids)),
     add_output (render (fst (fst (batch d p ids))))
                (map (search_event p) (snd (fst (batch d p ids)))) a).
Proof.
  revert a; induction ids as [|entry rest IH]; intros a; simpl.
  - unfold ret. rewrite add_output_nil. reflexivity.
  - unfold bind. rewrite search_entry_eq.
    destruct (lookup d p entry) as [rows [e|]]; simpl; [reflexivity|].
    rewrite IH.
    destruct (batch d p rest) as [[rows' searched] e]; simpl.
    rewrite add_output_add_output, render_app. reflexivity.
Qed.

(** ** Validation *)

(** The parameters returned when the form passes validation. *)
Lemma validate_Some (a : App) (p : params) :
  parameters a = Some p ->
  validate_search_parameters a = (inr (Some p), a)
  /\ p = {| field := search_field a; base := search_base a;
            attributes :=
              map strip
                (split comma (search_field a ++ comma :: search_attributes a))
         |}.
Proof.
  unfold parameters, validate_search_parameters.
  destruct (is_empty (search_field a) || str_eqb (search_field a) field_placeholder);
    [discriminate|].
  destruct (is_empty (search_base a) || str_eqb (search_base a) base_placeholder);
    [discriminate|].
  destruct (is_empty (search_attributes a)
            || str_eqb (search_attributes a) attributes_placeholder);
    [discriminate|].
  simpl. intros H; inversion H; subst. split; reflexivity.
Qed.

(** A form that fails validation shows one warning and changes nothing
    else. *)
Lemma validate_None (a : App) :
  parameters a = None ->
  exists message,
    validate_search_parameters a
    = (inr None, add_output [] [ShowWarning (py "Invalid Input") message] a).
Proof.
  unfold parameters, validate_search_parameters.
  destruct (is_empty (search_field a) || str_eqb (search_field a) field_placeholder).
  { intros _. eexists. unfold show_warning, bind, emit, ret.
    rewrite add_output_events. reflexivity. }
  destruct (is_empty (search_base a) || str_eqb (search_base a) base_placeholder).
  { intros _. eexists. unfold show_warning, bind, emit, ret.
    rewrite add_output_events. reflexivity. }
  destruct (is_empty (search_attributes a)
            || str_eqb (search_attributes a) attributes_placeholder).
  { intros _. eexists. unfold show_warning, bind, emit, ret.
    rewrite add_output_events. reflexivity. }
  simpl. discriminate.
Qed.

(** ** The three ways a press of the button ends *)

Lemma run_rejected (d : Directory) (a : App) :
  parameters a = None ->
  exists message,
    run d a = add_output [] [ShowWarning (py "Invalid Input") message] a.
Proof.
  intros H. destruct (validate_None a H) as [message Hv].
  exists message. unfold run, perform_ldap_search, bind.
  rewrite Hv. reflexivity.
Qed.

Lemma run_not_bound (d : Directory) (a : App) (p : params) (e : exn) :
  parameters a = Some p -> login d a = Some e ->
  run d a
  = add_output [] [bind_event a; error_event e] (set_right_textbox [] a).
Proof.
  intros H Hl. destruct (validate_Some a H) as [Hv _].
  unfold run, perform_ldap_search. unfold bind at 1. rewrite Hv.
  unfold bind at 1. unfold right_textbox_delete at 1.
  unfold try_except. unfold bind at 1. unfold connect.
  unfold bind at 1. unfold emit at 1.
  unfold login in Hl. simpl. rewrite Hl.
  unfold raise, show_error, emit. simpl.
  unfold add_output, set_trace, set_right_textbox, bind_event, error_event.
  simpl. rewrite <- app_assoc. reflexivity.
Qed.

Lemma run_bound (d : Directory) (a : App) (p : params) :
  parameters a = Some p -> login d a = None ->
  run d a
  = match batch d p (identifiers a) with
    | (rows, searched, None) =>
        match unbind d with
        | None =>
            set_csv_export_button true
              (add_output (render (attributes p :: rows))
                 (bind_event a :: map (search_event p) searched ++ [Unbind])
                 (set_right_textbox [] a))
        | Some e =>
            add_output (render (attributes p :: rows))
              (bind_event a :: map (search_event p) searched
                 ++ [Unbind; error_event e])
              (set_right_textbox [] a)
        end
    | (rows, searched, Some e) =>
        add_output (render (attributes p :: rows))
          (bind_event a :: map (search_event p) searched ++ [error_event e])
          (set_right_textbox [] a)
    end.
Proof.
  intros H Hl. destruct (validate_Some a H) as [Hv _].
  unfold run, perform_ldap_search. unfold bind at 1. rewrite Hv.
  unfold bind at 1. unfold right_textbox_delete at 1.
  unfold try_except. unfold bind at 1. unfold connect.
  unfold bind at 1. unfold emit at 1.
  unfold login in Hl. simpl. rewrite Hl.
  unfold ret at 1. unfold bind at 1. unfold right_textbox_insert at 1.
  unfold bind at 1. rewrite for_each_batch.
  change (identifiers _) with (identifiers a).
  destruct (batch d p (identifiers a)) as [[rows searched] [e|]]; simpl.
  - unfold show_error, emit. simpl.
    unfold add_output, set_trace, set_right_textbox, bind_event, error_event,
      render. simpl. rewrite <- !app_assoc. reflexivity.
  - unfold bind, conn_unbind, emit. simpl.
    destruct (unbind d) as [e|]; simpl.
    + unfold raise, show_error, emit. simpl.
      unfold add_output, set_trace, set_right_textbox, bind_event,
        error_event, render. simpl. rewrite <- !app_assoc. reflexivity.
    + unfold ret.
      unfold add_output, set_trace, set_right_textbox, set_csv_export_button,
        bind_event, render. simpl. rewrite <- !app_assoc. reflexivity.
Qed.

(** ** What the loop does on a given directory *)

Lemma project_all_rows (results : list Entry) (attrs : list str)
  (rows : list (list str)) :
  map (fun result => cells result attrs) results = map inr rows ->
  project_all results attrs = (rows, None).
Proof.
  revert rows; induction results as [|result rest IH]; intros [|row rows];
    simpl; try discriminate; [reflexivity|].
  intros H; inversion H as [[Hc Hr]]. rewrite Hc, (IH _ Hr). reflexivity.
Qed.

Lemma project_all_raises (before after : list Entry) (result : Entry)
  (attrs : list str) (rows : list (list str)) (e : exn) :
  map (fun result => cells result attrs) before = map inr rows ->
  cells result attrs = inl e ->
  project_all (before ++ result :: after) attrs = (rows, Some e).
Proof.
  revert rows; induction before as [|r before IH]; intros [|row rows];
    simpl; try discriminate.
  - intros _ ->. reflexivity.
  - intros H He; inversion H as [[Hc Hr]]. rewrite Hc, (IH _ Hr He).
    reflexivity.
Qed.

Lemma lookup_answers (d : Directory) (p : params) (entry : str)
  (rows : list (list str)) :
  answers d p entry rows -> lookup d p entry = (rows, None).
Proof.
  intros (results & He & Hr). unfold lookup. rewrite He.
  apply project_all_rows; exact Hr.
Qed.

Lemma project_all_None (results : list Entry) (attrs : list str)
  (rows : list (list str)) :
  project_all results attrs = (rows, None) ->
  map (fun result => cells result attrs) results = map inr rows.
Proof.
  revert rows; induction results as [|result rest IH]; intros rows; simpl.
  - intros H; inversion H; reflexivity.
  - destruct (cells result attrs) as [e|row]; [discriminate|].
    destruct (project_all rest attrs) as [rows' e].
    intros H; inversion H; subst. simpl. rewrite (IH rows'); reflexivity.
Qed.

(** [answers] can be checked by running [lookup] line by line. *)
Lemma answers_by_lookup (d : Directory) (p : params) (ids : list str)
  (table : list (list (list str))) :
  map (lookup d p) ids = map (fun rows => (rows, None)) table ->
  Forall2 (answers d p) ids table.
Proof.
  revert table; induction ids as [|entry ids IH]; intros [|rows table];
    simpl; try discriminate; [constructor|].
  intros H; inversion H as [[Hl Hr]]. constructor; [|apply IH; exact Hr].
  unfold lookup in Hl. unfold answers.
  destruct (entries d (base p) (search_filter (field p) entry) (attributes p))
    as [e|results]; [discriminate|].
  exists results. split; [reflexivity|]. apply project_all_None; exact Hl.
Qed.

(** When every line is answered, every line is searched and every row
    written. *)
Lemma batch_answers (d : Directory) (p : params) (ids : list str)
  (table : list (list (list str))) :
  Forall2 (answers d p) ids table ->
  batch d p ids = (concat table, ids, None).
Proof.
  induction 1 as [|entry rows ids table Ha _ IH]; simpl; [reflexivity|].
  rewrite (lookup_answers Ha), IH. reflexivity.
Qed.

(** The loop ends at the first line whose pass raises. *)
Lemma batch_stops (d : Directory) (p : params) (pre post : list str)
  (bad : str) (table : list (list (list str))) (rows : list (list str))
  (e : exn) :
  Forall2 (answers d p) pre table ->
  lookup d p bad = (rows, Some e) ->
  batch d p (pre ++ bad :: post)
  = (concat table ++ rows, pre ++ [bad], Some e).
Proof.
  intros Hpre Hbad.
  induction Hpre as [|entry rows0 pre table Ha _ IH]; simpl.
  - rewrite Hbad. reflexivity.
  - rewrite (lookup_answers Ha), IH, app_assoc. reflexivity.
Qed.

(** Whatever the directory does, the lines searched are the first lines
    of the input, in order. *)
Lemma batch_searched_prefix (d : Directory) (p : params) (ids : list str) :
  exists n, snd (fst (batch d p ids)) = firstn n ids.
Proof.
  induction ids as [|entry rest [n IH]]; simpl.
  - exists O. reflexivity.
  - destruct (lookup d p entry) as [rows [e|]].
    + exists 1%nat. reflexivity.
    + destruct (batch d p rest) as [[rows' searched] e]. simpl in *.
      exists (S n). simpl. rewrite IH. reflexivity.
Qed.

(** ** Reading a trace *)

Lemma searches_app (t1 t2 : list event) :
  searches (t1 ++ t2) = searches t1 ++ searches t2.
Proof.
  induction t1 as [|ev t1 IH]; simpl; [reflexivity|].
  destruct ev; simpl; rewrite IH; reflexivity.
Qed.

Lemma binds_app (t1 t2 : list event) :
  binds (t1 ++ t2) = (binds t1 + binds t2)%nat.
Proof.
  induction t1 as [|ev t1 IH]; simpl; [reflexivity|].
  destruct ev; simpl; rewrite IH; reflexivity.
Qed.

Lemma unbinds_app (t1 t2 : list event) :
  unbinds (t1 ++ t2) = (unbinds t1 + unbinds t2)%nat.
Proof.
  induction t1 as [|ev t1 IH]; simpl; [reflexivity|].
  destruct ev; simpl; rewrite IH; reflexivity.
Qed.

Lemma searches_search_events (p : params) (ids : list str) :
  searches (map (search_event p) ids) = map (search_filter (field p)) ids.
Proof. induction ids; simpl; congruence. Qed.

Lemma unbinds_search_events (p : params) (ids : list str) :
  unbinds (map (search_event p) ids) = O.
Proof. induction ids; simpl; congruence. Qed.

(** ** Complete and interrupted runs *)

Lemma parameters_field (a : App) (p : params) :
  parameters a = Some p -> field p = search_field a.
Proof. intros H. destruct (validate_Some a H) as [_ ->]. reflexivity. Qed.

(** A run in which every line is answered. *)
Lemma run_complete (d : Directory) (a : App) (p : params)
  (table : list (list (list str))) :
  parameters a = Some p -> login d a = None ->
  Forall2 (answers d p) (identifiers a) table ->
  run d a
  = match unbind d with
    | None =>
        set_csv_export_button true
          (add_output (render (attributes p :: concat table))
             (bind_event a :: map (search_event p) (identifiers a) ++ [Unbind])
             (set_right_textbox [] a))
    | Some e =>
        add_output (render (attributes p :: concat table))
          (bind_event a :: map (search_event p) (identifiers a)
             ++ [Unbind; error_event e])
          (set_right_textbox [] a)
    end.
Proof.
  intros Hp Hl Ht. rewrite (run_bound d a Hp Hl), (batch_answers Ht).
  reflexivity.
Qed.

(** A run in which the pass over the line [bad] raises [e] after writing
    [rows]. *)
Lemma run_stops (d : Directory) (a : App) (p : params) (pre post : list str)
  (bad : str) (table : list (list (list str))) (rows : list (list str))
  (e : exn) :
  parameters a = Some p -> login d a = None ->
  identifiers a = pre ++ bad :: post ->
  Forall2 (answers d p) pre table ->
  lookup d p bad = (rows, Some e) ->
  run d a
  = add_output (render (attributes p :: concat table ++ rows))
      (bind_event a :: map (search_event p) (pre ++ [bad]) ++ [error_event e])
      (set_right_textbox [] a).
Proof.
  intros Hp Hl Hi Ht Hb.
  rewrite (run_bound d a Hp Hl), Hi,
    (@batch_stops d p pre post bad table rows e Ht Hb).
  reflexivity.
Qed.

(** In every run the searches issued are for the first lines of the
    input, in order, each with the filter of line 206. *)
Lemma run_searches (d : Directory) (a : App) :
  exists n,
    searches (trace (run d a))
    = searches (trace a)
      ++ map (search_filter (search_field a)) (firstn n (identifiers a)).
Proof.
  destruct (parameters a) as [p|] eqn:Hp.
  - rewrite <- (parameters_field a Hp).
    destruct (login d a) as [e|] eqn:Hl.
    + exists O. rewrite (run_not_bound d a Hp Hl). simpl.
      rewrite searches_app. reflexivity.
    + rewrite (run_bound d a Hp Hl).
      destruct (batch_searched_prefix d p (identifiers a)) as [n Hn].
      exists n.
      destruct (batch d p (identifiers a)) as [[rows searched] [e|]];
        [|destruct (unbind d)];
        simpl in *; subst searched;
        rewrite searches_app; simpl;
        rewrite searches_app, searches_search_events; simpl;
        rewrite app_nil_r; reflexivity.
  - destruct (run_rejected d a Hp) as [message ->]. exists O. simpl.
    rewrite searches_app. reflexivity.
Qed.

(** ** Escaping *)

Lemma spec_escape_length (value : str) :
  (length value <= length (spec_escape value))%nat.
Proof.
  induction value as [|c value IH]; [simpl; lia|].
  change (spec_escape (c :: value))
    with (spec_escape_char c ++ spec_escape value).
  rewrite length_app. simpl.
  assert (1 <= length (spec_escape_char c))%nat as H; [|lia].
  unfold spec_escape_char.
  repeat match goal with |- context [if ?b then _ else _] => destruct b end;
    simpl; lia.
Qed.

(** Escaping leaves a value as it is exactly when the value holds no
    reserved character. *)
Lemma spec_escape_fixed (value : str) :
  spec_escape value = value
  <-> forallb (fun c => negb (reserved c)) value = true.
Proof.
  induction value as [|c value IH]; simpl; [tauto|].
  fold (spec_escape value).
  rewrite andb_true_iff, <- IH.
  pose proof (spec_escape_length value) as Hlen.
  unfold reserved, spec_escape_char.
  destruct (c =? 40); [split; [intros H; apply (f_equal (@length _)) in H; simpl in H; lia | intros [? _]; discriminate]|].
  destruct (c =? 41); [split; [intros H; apply (f_equal (@length _)) in H; simpl in H; lia | intros [? _]; discriminate]|].
  destruct (c =? 92); [split; [intros H; apply (f_equal (@length _)) in H; simpl in H; lia | intros [? _]; discriminate]|].
  destruct (c =? 42); [split; [intros H; apply (f_equal (@length _)) in H; simpl in H; lia | intros [? _]; discriminate]|].
  destruct (c =? 0); [split; [intros H; apply (f_equal (@length _)) in H; simpl in H; lia | intros [? _]; discriminate]|].
  simpl. split; [intros H; inversion H as [H']; rewrite H'; auto | intros [_ ->]; reflexivity].
Qed.

(** ** The scenario of [test_perform_ldap_search]

    Two mocked entries whose every attribute reads "value1" and
    "value2"; the search is issued with the field in front of the
    attributes asked for, and both values reach the results. *)

Example test_perform_ldap_search :
  let d := {| auto_bind := fun _ _ _ => None;
              entries := fun _ _ _ =>
                inr [mock_entry (py "value1"); mock_entry (py "value2")];
              unbind := None |} in
  let a := {| search_field := py "test_field"; search_base := py "test_base";
              search_attributes := py "attr1,attr2";
              left_textbox := py "test_search_value"; right_textbox := [];
              csv_export_button := false;
              ldap_server_properties :=
                [ (py "server", [(py "server", py "test_server")]);
                  (py "credentials", [ (py "username", py "test_user");
                                       (py "password", py "test_pass") ]) ];
              trace := [] |} in
  trace (run d a)
  = [ Bind (Some (py "test_server")) (Some (py "test_user"))
           (Some (py "test_pass"));
      Search (py "test_base") (py "(test_field=test_search_value)")
             [py "test_field"; py "attr1"; py "attr2"];
      Unbind ]
  /\ right_textbox (run d a)
     = render [ [py "test_field"; py "attr1"; py "attr2"];
                [py "value1"; py "value1"; py "value1"];
                [py "value2"; py "value2"; py "value2"] ]
  /\ csv_export_button (run d a) = true.
Proof. intros d a. split; [reflexivity|]. split; reflexivity. Qed.

(** * The claims *)

(** C1, the claim as stated, fails: the directory is asked for the
    identifier [a)b] with the filter [(uid=a)b)], in which the closing
    parenthesis of the value is not escaped; the filter grammar of the
    protocol asks for [(uid=a\29b)]. *)
Lemma C1_reserved_character_not_escaped :
  searches (trace (run Example.directory
              (Example.app "uid" "dc=example,dc=com" "cn,mail" [py "a)b"])))
  = [py "(uid=a)b)"]
  /\ spec_buildFilter (py "uid") (py "a)b") = py "(uid=a\29b)"
  /\ py "(uid=a)b)" <> spec_buildFilter (py "uid") (py "a)b").
Proof. repeat split. vm_compute. discriminate. Qed.

(** C1, amended: every filter the engine submits is the equality filter
    "(field=value)" with the line of the identifier text put in as it
    is; no character is escaped, so the filter is the escaped one of the
    protocol's grammar exactly when the value holds none of the reserved
    characters (parentheses, backslash, asterisk, null).  In particular
    the filter for field "uid" and value "jdoe" is "(uid=jdoe)". *)
Theorem filter_holds_value_verbatim (d : Directory) (a : App) :
  (exists n,
     searches (trace (run d a))
     = searches (trace a)
       ++ map (fun entry => py "(" ++ search_field a ++ py "=" ++ entry ++ py ")")
              (firstn n (identifiers a)))
  /\ (forall field value,
        search_filter field value = spec_buildFilter field value
        <-> forallb (fun c => negb (reserved c)) value = true)
  /\ search_filter (py "uid") (py "jdoe") = py "(uid=jdoe)".
Proof.
  split; [exact (run_searches d a)|]. split; [|reflexivity].
  intros field value. rewrite <- spec_escape_fixed.
  unfold search_filter, spec_buildFilter. split.
  - intros H. apply app_inv_head in H. apply app_inv_head in H.
    apply app_inv_head in H. apply app_inv_tail in H. auto.
  - intros ->. reflexivity.
Qed.

(** C7, the claim as stated, fails: with the field typed as "uid "
    (a space after it) the form is valid, the field of the parameters is
    "uid " and the first effective attribute is "uid". *)
Lemma C7_field_is_trimmed_in_attributes :
  exists p,
    parameters (Example.app "uid " "dc=example,dc=com" "cn,mail" [py "jdoe"])
    = Some p
    /\ attributes p = [py "uid"; py "cn"; py "mail"]
    /\ attributes p <> field p :: map strip (split comma (py "cn,mail")).
Proof.
  eexists. split; [reflexivity|]. split; [reflexivity|].
  vm_compute. discriminate.
Qed.

(** C7, amended: for every valid form the effective attribute list is
    the pieces of the field followed by the pieces of the attributes
    input, each input split at commas and each piece trimmed; it equals
    [[S.field] + S.attributes] whenever the field holds no comma and no
    surrounding whitespace, also when the attributes already contain the
    field: the duplicate is kept. *)
Theorem effective_attributes (a : App) (p : params) :
  parameters a = Some p ->
  attributes p
  = map strip (split comma (search_field a))
    ++ map strip (split comma (search_attributes a))
  /\ (~ In comma (search_field a) ->
      strip (search_field a) = search_field a ->
      attributes p
      = field p :: map strip (split comma (search_attributes a))).
Proof.
  intros H. destruct (validate_Some a H) as [_ ->]. simpl.
  rewrite split_app, map_app. split; [reflexivity|].
  intros Hc Hs. rewrite (split_single _ _ Hc). simpl. rewrite Hs.
  reflexivity.
Qed.

Lemma effective_attributes_witness :
  parameters (Example.app "uid" "dc=example,dc=com" "uid,cn" [py "jdoe"])
  = Some {| field := py "uid"; base := py "dc=example,dc=com";
            attributes := [py "uid"; py "uid"; py "cn"] |}
  /\ [py "uid"; py "uid"; py "cn"]
     = py "uid" :: map strip (split comma (py "uid,cn")).
Proof.
  split; [reflexivity|].
  refine (proj2 (@effective_attributes
                   (Example.app "uid" "dc=example,dc=com" "uid,cn" [py "jdoe"])
                   _ eq_refl) _ eq_refl).
  vm_compute. intros H. repeat (destruct H as [H|H]; [discriminate|]).
  exact H.
Defined.

(** C10: validation returns no parameters exactly when the field, the
    base or the attributes input is empty or is its placeholder text;
    then no session is opened, no search is issued and the results are
    left as they were, and otherwise a session is attempted. *)
Theorem validation_rejects_missing_input (d : Directory) (a : App) :
  (fst (validate_search_parameters a) = inr None
   <-> (search_field a = [] \/ search_field a = py "LDAP field to search")
       \/ (search_base a = [] \/ search_base a = py "LDAP search base")
       \/ (search_attributes a = []
           \/ search_attributes a
              = py "LDAP attributes to search (separated by commas)"))
  /\ (fst (validate_search_parameters a) = inr None
      <-> binds (trace (run d a)) = binds (trace a))
  /\ (fst (validate_search_parameters a) = inr None ->
      searches (trace (run d a)) = searches (trace a)
      /\ right_textbox (run d a) = right_textbox a).
Proof.
  assert (Hiff : fst (validate_search_parameters a) = inr None
                 <-> parameters a = None).
  { unfold parameters. destruct (fst (validate_search_parameters a)) as [e|r] eqn:Hv.
    - split; [discriminate|]. intros _. exfalso. revert Hv.
      unfold validate_search_parameters.
      repeat match goal with |- context [if ?b then _ else _] => destruct b end;
        discriminate.
    - split; congruence. }
  split; [|split].
  - rewrite Hiff. unfold parameters, validate_search_parameters.
    fold field_placeholder base_placeholder attributes_placeholder.
    pose proof (is_empty_nil (search_field a)) as F1.
    pose proof (str_eqb_eq (search_field a) field_placeholder) as F2.
    pose proof (is_empty_nil (search_base a)) as B1.
    pose proof (str_eqb_eq (search_base a) base_placeholder) as B2.
    pose proof (is_empty_nil (search_attributes a)) as A1.
    pose proof (str_eqb_eq (search_attributes a) attributes_placeholder) as A2.
    destruct (is_empty (search_field a)), (str_eqb (search_field a) field_placeholder),
      (is_empty (search_base a)), (str_eqb (search_base a) base_placeholder),
      (is_empty (search_attributes a)),
      (str_eqb (search_attributes a) attributes_placeholder); simpl;
      intuition congruence.
  - rewrite Hiff. destruct (parameters a) as [p|] eqn:Hp.
    + split; [discriminate|]. intros H. exfalso. revert H.
      destruct (login d a) as [e|] eqn:Hl.
      * rewrite (run_not_bound d a Hp Hl). simpl. rewrite binds_app. simpl. lia.
      * rewrite (run_bound d a Hp Hl).
        destruct (batch d p (identifiers a)) as [[rows searched] [e|]];
          [|destruct (unbind d)]; simpl; rewrite binds_app; simpl; lia.
    + split; [|reflexivity]. intros _.
      destruct (run_rejected d a Hp) as [message ->]. simpl.
      rewrite binds_app. simpl. lia.
  - rewrite Hiff. intros Hp. destruct (run_rejected d a Hp) as [message ->].
    simpl. rewrite searches_app. simpl. rewrite !app_nil_r. auto.
Qed.

(** Discharges [Forall2 (answers d p) ids table] on a concrete
    directory. *)
Ltac answered := apply answers_by_lookup; vm_compute; reflexivity.

(** C2, the claim as stated, fails: the search for "slow" times out, and
    the next identifier, "jdoe", which the directory holds, is neither
    searched nor written to the results. *)
Lemma C2_raising_search_aborts_batch :
  entries Example.directory (py "dc=example,dc=com") (py "(uid=slow)")
          [py "uid"; py "cn"; py "mail"]
  = inl Example.timeout
  /\ ~ In (py "(uid=jdoe)")
          (searches (trace (run Example.directory
             (Example.app "uid" "dc=example,dc=com" "cn,mail"
                          [py "slow"; py "jdoe"]))))
  /\ right_textbox (run Example.directory
       (Example.app "uid" "dc=example,dc=com" "cn,mail"
                    [py "slow"; py "jdoe"]))
     = render [[py "uid"; py "cn"; py "mail"]].
Proof.
  split; [reflexivity|]. split; [|reflexivity].
  vm_compute. intros [H|[]]. discriminate.
Qed.

(** C2, amended: when the search for one identifier raises (service
    error or timeout), the batch ends there: the rows of the identifiers
    before it stay in the results, that identifier contributes zero
    rows, no later identifier is searched, and the error is shown. *)
Theorem raising_search_ends_batch (d : Directory) (a : App) (p : params)
  (pre post : list str) (bad : str) (table : list (list (list str)))
  (e : exn) :
  parameters a = Some p -> login d a = None ->
  identifiers a = pre ++ bad :: post ->
  Forall2 (answers d p) pre table ->
  entries d (base p) (search_filter (field p) bad) (attributes p) = inl e ->
  searches (trace (run d a))
  = searches (trace a) ++ map (search_filter (field p)) (pre ++ [bad])
  /\ right_textbox (run d a) = render (attributes p :: concat table)
  /\ In (error_event e) (trace (run d a)).
Proof.
  intros Hp Hl Hi Ht He.
  assert (Hb : lookup d p bad = ([], Some e)).
  { unfold lookup. rewrite He. reflexivity. }
  rewrite (@run_stops d a p pre post bad table [] e Hp Hl Hi Ht Hb). simpl.
  rewrite app_nil_r. split; [|split; [reflexivity|]].
  - rewrite searches_app. simpl.
    rewrite searches_app, searches_search_events. simpl.
    rewrite app_nil_r. reflexivity.
  - apply in_or_app. right. right. apply in_or_app. right. left. reflexivity.
Qed.

Lemma raising_search_ends_batch_witness :
  let a := Example.app "uid" "dc=example,dc=com" "cn,mail"
                       [py "jdoe"; py "slow"; py "asmith"] in
  searches (trace (run Example.directory a))
  = [py "(uid=jdoe)"; py "(uid=slow)"]
  /\ right_textbox (run Example.directory a)
     = render [ [py "uid"; py "cn"; py "mail"];
                [py "jdoe"; py "John Doe"; py "jdoe@example.com"] ]
  /\ In (error_event Example.timeout) (trace (run Example.directory a)).
Proof.
  intros a.
  apply (@raising_search_ends_batch Example.directory a
           {| field := py "uid"; base := py "dc=example,dc=com";
              attributes := [py "uid"; py "cn"; py "mail"] |}
           [py "jdoe"] [py "asmith"] (py "slow")
           [[[py "jdoe"; py "John Doe"; py "jdoe@example.com"]]]
           Example.timeout);
    [reflexivity | reflexivity | reflexivity | answered | reflexivity].
Defined.

(** C3, the claim as stated, fails: searching "JDOE" matches the entry
    whose [uid] is "jdoe", and the first column of the row is "jdoe",
    the value of the entry, not the identifier searched for. *)
Lemma C3_first_column_is_not_identifier :
  right_textbox (run Example.directory
    (Example.app "uid" "dc=example,dc=com" "cn,mail" [py "JDOE"]))
  = render [ [py "uid"; py "cn"; py "mail"];
             [py "jdoe"; py "John Doe"; py "jdoe@example.com"] ]
  /\ right_textbox (run Example.directory
       (Example.app "uid" "dc=example,dc=com" "cn,mail" [py "JDOE"]))
     <> render [ [py "uid"; py "cn"; py "mail"];
                 [py "JDOE"; py "John Doe"; py "jdoe@example.com"] ].
Proof. split; [reflexivity|]. vm_compute. discriminate. Qed.

(** C3, amended: for every matched entry, the first column of its
    output row (the column named after the search field) holds the
    entry's own value of that attribute, the first effective attribute
    being the trimmed first piece of the search field; the identifier
    searched for is not copied into the row.  With field "uid" and an
    entry {uid: "jdoe", cn: "John Doe", mail: "jdoe@example.com"} the
    data row is ["jdoe", "John Doe", "jdoe@example.com"], whatever
    identifier matched it. *)
Theorem first_column_is_entry_value (d : Directory) (a : App) (p : params)
  (table : list (list (list str))) :
  parameters a = Some p -> login d a = None ->
  Forall2 (answers d p) (identifiers a) table ->
  exists attr others,
    attributes p = attr :: others
    /\ attr = strip (hd [] (split comma (search_field a)))
    /\ right_textbox (run d a) = render (attributes p :: concat table)
    /\ Forall2
         (fun entry rows =>
            exists results,
              entries d (search_base a)
                      (search_filter (search_field a) entry) (attributes p)
              = inr results
              /\ Forall2 (fun result row =>
                            exists v rest,
                              row = v :: rest /\ result attr = inr v)
                         results rows)
         (identifiers a) table.
Proof.
  intros Hp Hl Ht.
  assert (Hattr : exists others,
            attributes p
            = strip (hd [] (split comma (search_field a))) :: others).
  { destruct (validate_Some a Hp) as [_ ->]. simpl.
    rewrite split_app, map_app.
    pose proof (split_not_nil comma (search_field a)) as Hne.
    destruct (split comma (search_field a)) as [|piece pieces]; [congruence|].
    simpl. eauto. }
  destruct Hattr as [others Hattr].
  exists (strip (hd [] (split comma (search_field a)))), others.
  split; [exact Hattr|]. split; [reflexivity|]. split.
  - rewrite (@run_complete d a p table Hp Hl Ht).
    destruct (unbind d); reflexivity.
  - destruct (validate_Some a Hp) as [_ Hrec].
    assert (Hb : base p = search_base a) by (rewrite Hrec; reflexivity).
    assert (Hf : field p = search_field a) by (rewrite Hrec; reflexivity).
    clear Hrec.
    eapply Forall2_impl; [|exact Ht].
    intros entry rows (results & He & Hr). exists results.
    rewrite Hb, Hf in He. split; [exact He|]. clear He.
    revert rows Hr. induction results as [|result rest IH];
      intros [|row rows] Hr; simpl in Hr; try discriminate; constructor.
    + inversion Hr as [[Hc _]]. rewrite Hattr in Hc. simpl in Hc.
      destruct (result (strip (hd [] (split comma (search_field a)))))
        as [e|v] eqn:Hv; [discriminate|].
      destruct (cells result others) as [e|vs]; [discriminate|].
      inversion Hc. exists v, vs. split; reflexivity.
    + inversion Hr. apply IH. assumption.
Qed.

Lemma first_column_is_entry_value_witness :
  right_textbox (run Example.directory
    (Example.app "uid" "dc=example,dc=com" "cn,mail" [py "JDOE"]))
  = render [ [py "uid"; py "cn"; py "mail"];
             [py "jdoe"; py "John Doe"; py "jdoe@example.com"] ].
Proof.
  assert (Ht : Forall2
            (answers Example.directory
               {| field := py "uid"; base := py "dc=example,dc=com";
                  attributes := [py "uid"; py "cn"; py "mail"] |})
            (identifiers
               (Example.app "uid" "dc=example,dc=com" "cn,mail" [py "JDOE"]))
            [[[py "jdoe"; py "John Doe"; py "jdoe@example.com"]]])
    by answered.
  destruct (@first_column_is_entry_value Example.directory
              (Example.app "uid" "dc=example,dc=com" "cn,mail" [py "JDOE"])
              {| field := py "uid"; base := py "dc=example,dc=com";
                 attributes := [py "uid"; py "cn"; py "mail"] |}
              [[[py "jdoe"; py "John Doe"; py "jdoe@example.com"]]]
              eq_refl eq_refl Ht)
    as (attr & others & _ & _ & Htext & _).
  exact Htext.
Defined.

(** C4, at the failing input: the session is opened, the search for
    "slow" raises, and the session is never unbound. *)
Theorem session_left_open_when_search_raises :
  binds (trace (run Example.directory
    (Example.app "uid" "dc=example,dc=com" "cn,mail" [py "slow"]))) = 1%nat
  /\ unbinds (trace (run Example.directory
       (Example.app "uid" "dc=example,dc=com" "cn,mail" [py "slow"]))) = 0%nat.
Proof. split; reflexivity. Qed.

(** C5, the claim as stated, fails: with the lines "jdoe", an empty line
    and " asmith", the empty line is searched, as "(uid=)", and the
    third line is searched with its leading space; the trimmed non-blank
    identifiers would give "(uid=jdoe)" and "(uid=asmith)". *)
Lemma C5_blank_line_is_searched :
  searches (trace (run Example.directory
    (Example.app "uid" "dc=example,dc=com" "cn,mail"
                 [py "jdoe"; py ""; py " asmith"])))
  = [py "(uid=jdoe)"; py "(uid=)"; py "(uid= asmith)"]
  /\ map (search_filter (py "uid"))
         (spec_identifiers (join [LF] [py "jdoe"; py ""; py " asmith"]))
     = [py "(uid=jdoe)"; py "(uid=asmith)"].
Proof. split; reflexivity. Qed.

(** C5, amended: whitespace, blank lines included, at the start and at
    the end of the identifier text as a whole is insignificant, and a
    blank or whitespace-only text produces no search call and no row;
    the lines of the text so trimmed are searched one by one as they
    are, a blank line inside the text and the whitespace around a single
    identifier included. *)
Theorem identifiers_are_lines_of_trimmed_text (d : Directory) (a : App)
  (p : params) (table : list (list (list str))) :
  parameters a = Some p -> login d a = None ->
  Forall2 (answers d p) (splitlines (strip (left_textbox a))) table ->
  searches (trace (run d a))
  = searches (trace a)
    ++ map (search_filter (field p)) (splitlines (strip (left_textbox a)))
  /\ (forall a' ws1 ws2,
        forallb isspace ws1 = true -> forallb isspace ws2 = true ->
        left_textbox a' = ws1 ++ left_textbox a ++ ws2 ->
        identifiers a' = identifiers a)
  /\ (forallb isspace (left_textbox a) = true ->
      searches (trace (run d a)) = searches (trace a)
      /\ right_textbox (run d a) = render [attributes p]).
Proof.
  intros Hp Hl Ht.
  assert (Hi : identifiers a = splitlines (strip (left_textbox a))).
  { unfold identifiers. rewrite strip_text_get. reflexivity. }
  rewrite <- Hi in *.
  rewrite (@run_complete d a p table Hp Hl Ht).
  split; [|split].
  - destruct (unbind d); simpl; rewrite searches_app; simpl;
      rewrite searches_app, searches_search_events; simpl;
      rewrite app_nil_r; reflexivity.
  - intros a' ws1 ws2 H1 H2 Ha'. unfold identifiers.
    rewrite !strip_text_get, Ha', strip_spaces_l, strip_spaces_r; auto.
  - intros Hb.
    assert (Hnil : identifiers a = []) by (rewrite Hi; apply strip_blank in Hb; rewrite Hb; reflexivity).
    rewrite Hnil in *. inversion Ht; subst.
    destruct (unbind d); simpl; rewrite searches_app; simpl;
      rewrite app_nil_r; split; reflexivity.
Qed.

Lemma identifiers_are_lines_of_trimmed_text_witness :
  let a := Example.app "uid" "dc=example,dc=com" "cn,mail"
                       [py "jdoe"; py ""; py " asmith"] in
  searches (trace (run Example.directory a))
  = map (search_filter (py "uid")) [py "jdoe"; py ""; py " asmith"].
Proof.
  intros a.
  refine (proj1 (@identifiers_are_lines_of_trimmed_text Example.directory a
           {| field := py "uid"; base := py "dc=example,dc=com";
              attributes := [py "uid"; py "cn"; py "mail"] |}
           [[[py "jdoe"; py "John Doe"; py "jdoe@example.com"]]; []; []]
           eq_refl eq_refl _)).
  answered.
Defined.





(** C8, the claim as stated, fails: of the three non-blank identifiers
    "jdoe", "slow" and "asmith", the third is never searched, because
    the search for the second raises, and the entry the directory holds
    for it gets no row. *)
Lemma C8_identifier_after_error_not_searched :
  spec_identifiers (join [LF] [py "jdoe"; py "slow"; py "asmith"])
  = [py "jdoe"; py "slow"; py "asmith"]
  /\ searches (trace (run Example.directory
       (Example.app "uid" "dc=example,dc=com" "cn,mail"
                    [py "jdoe"; py "slow"; py "asmith"])))
     = [py "(uid=jdoe)"; py "(uid=slow)"]
  /\ right_textbox (run Example.directory
       (Example.app "uid" "dc=example,dc=com" "cn,mail"
                    [py "jdoe"; py "slow"; py "asmith"]))
     = render [ [py "uid"; py "cn"; py "mail"];
                [py "jdoe"; py "John Doe"; py "jdoe@example.com"] ]
  /\ right_textbox (run Example.directory
       (Example.app "uid" "dc=example,dc=com" "cn,mail" [py "asmith"]))
     = render [ [py "uid"; py "cn"; py "mail"];
                [py "asmith"; py "Ann Smith"; py "asmith@example.com"] ].
Proof.
  split; [reflexivity|]. split; [reflexivity|]. split; reflexivity.
Qed.

(** C8, amended: in every run in which the session is bound and no
    search and no projection raises, the engine issues exactly one
    search per line of the trimmed identifier text, in input order, and
    the results are the header row (the effective attribute list)
    followed by one row per matched entry, grouped in line order and,
    within a line, in the order the service returned the entries, with
    no reordering, deduplication or merging of rows. *)
Theorem table_follows_input_order (d : Directory) (a : App) (p : params)
  (table : list (list (list str))) :
  parameters a = Some p -> login d a = None ->
  Forall2 (answers d p) (identifiers a) table ->
  searches (trace (run d a))
  = searches (trace a) ++ map (search_filter (field p)) (identifiers a)
  /\ right_textbox (run d a) = render (attributes p :: concat table).
Proof.
  intros Hp Hl Ht. rewrite (@run_complete d a p table Hp Hl Ht).
  split; [|destruct (unbind d); reflexivity].
  destruct (unbind d); simpl; rewrite searches_app; simpl;
    rewrite searches_app, searches_search_events; simpl;
    rewrite app_nil_r; reflexivity.
Qed.

Lemma table_follows_input_order_witness :
  let a := Example.app "uid" "dc=example,dc=com" "cn,mail"
                       [py "asmith"; py "nobody"; py "jdoe"; py "asmith"] in
  searches (trace (run Example.directory a))
  = [py "(uid=asmith)"; py "(uid=nobody)"; py "(uid=jdoe)"; py "(uid=asmith)"]
  /\ right_textbox (run Example.directory a)
     = render [ [py "uid"; py "cn"; py "mail"];
                [py "asmith"; py "Ann Smith"; py "asmith@example.com"];
                [py "jdoe"; py "John Doe"; py "jdoe@example.com"];
                [py "asmith"; py "Ann Smith"; py "asmith@example.com"] ].
Proof.
  intros a.
  refine (@table_follows_input_order Example.directory a
           {| field := py "uid"; base := py "dc=example,dc=com";
              attributes := [py "uid"; py "cn"; py "mail"] |}
           [ [[py "asmith"; py "Ann Smith"; py "asmith@example.com"]];
             [];
             [[py "jdoe"; py "John Doe"; py "jdoe@example.com"]];
             [[py "asmith"; py "Ann Smith"; py "asmith@example.com"]] ]
           eq_refl eq_refl _).
  answered.
Defined.

(** Validation reads the three inputs of the form only. *)
Lemma parameters_set_right_textbox (old : str) (a : App) :
  parameters (set_right_textbox old a) = parameters a.
Proof.
  unfold parameters, validate_search_parameters.
  change (search_field (set_right_textbox old a)) with (search_field a).
  change (search_base (set_right_textbox old a)) with (search_base a).
  change (search_attributes (set_right_textbox old a))
    with (search_attributes a).
  destruct (is_empty (search_field a) || str_eqb (search_field a) field_placeholder);
    [reflexivity|].
  destruct (is_empty (search_base a) || str_eqb (search_base a) base_placeholder);
    [reflexivity|].
  destruct (is_empty (search_attributes a)
            || str_eqb (search_attributes a) attributes_placeholder);
    reflexivity.
Qed.

(** C9, the claim as stated, fails: pressing the button with the search
    field empty leaves the rows of the earlier run in the results. *)
Lemma C9_rejected_search_keeps_old_rows :
  right_textbox (run Example.directory
    (set_right_textbox (render [[py "uid"; py "cn"]; [py "jdoe"; py "John Doe"]])
       (Example.app "" "dc=example,dc=com" "cn,mail" [py "asmith"])))
  = render [[py "uid"; py "cn"]; [py "jdoe"; py "John Doe"]].
Proof. reflexivity. Qed.

(** C9, amended: every invocation of the batch search whose parameters
    pass validation clears the accumulated results before it opens the
    session, so its output holds no row of an earlier run, whether the
    earlier or the current run succeeded or failed; an invocation whose
    parameters fail validation leaves the results as they were. *)
Theorem results_cleared_after_validation (d : Directory) (a : App)
  (old : str) :
  (parameters a = None ->
   right_textbox (run d (set_right_textbox old a)) = old)
  /\ (parameters a <> None ->
      right_textbox (run d (set_right_textbox old a))
      = right_textbox (run d (set_right_textbox [] a))).
Proof.
  split; intros H.
  - rewrite <- (parameters_set_right_textbox old a) in H.
    destruct (run_rejected d _ H) as [message ->]. simpl.
    apply app_nil_r.
  - destruct (parameters a) as [p|] eqn:Hp; [clear H | congruence].
    pose proof (parameters_set_right_textbox old a) as Ho.
    pose proof (parameters_set_right_textbox [] a) as Hn.
    rewrite Hp in Ho, Hn.
    destruct (login d a) as [e|] eqn:Hl.
    + rewrite (@run_not_bound d _ p e Ho Hl), (@run_not_bound d _ p e Hn Hl).
      reflexivity.
    + rewrite (@run_bound d _ p Ho Hl), (@run_bound d _ p Hn Hl).
      change (identifiers (set_right_textbox old a)) with (identifiers a).
      change (identifiers (set_right_textbox [] a)) with (identifiers a).
      destruct (batch d p (identifiers a)) as [[rows searched] [e|]];
        [|destruct (unbind d)]; reflexivity.
Qed.

Lemma results_cleared_after_validation_witness :
  right_textbox (run Example.directory
    (set_right_textbox (render [[py "uid"; py "cn"]; [py "jdoe"; py "John Doe"]])
       (Example.app "uid" "dc=example,dc=com" "cn,mail" [py "asmith"])))
  = right_textbox (run Example.directory
      (set_right_textbox []
         (Example.app "uid" "dc=example,dc=com" "cn,mail" [py "asmith"]))).
Proof.
  apply (proj2 (results_cleared_after_validation Example.directory
                  (Example.app "uid" "dc=example,dc=com" "cn,mail"
                               [py "asmith"])
                  (render [[py "uid"; py "cn"]; [py "jdoe"; py "John Doe"]]))).
  vm_compute. discriminate.
Defined.

(** Once the session is bound, it is unbound exactly when the loop ends
    without an exception. *)
Lemma unbinds_after_bind (d : Directory) (a : App) (p : params) :
  parameters a = Some p -> login d a = None ->
  unbinds (trace (run d a))
  = (unbinds (trace a)
     + match snd (batch d p (identifiers a)) with
       | None => 1
       | Some _ => 0
       end)%nat.
Proof.
  intros Hp Hl. rewrite (@run_bound d a p Hp Hl).
  destruct (batch d p (identifiers a)) as [[rows searched] [e|]];
    [|destruct (unbind d)]; simpl;
    rewrite unbinds_app; simpl;
    rewrite unbinds_app, unbinds_search_events; reflexivity.
Qed.

(** * Further properties of the search *)

(** Validation, the bind and the loop read the form, the identifier box
    and the properties only. *)
Lemma parameters_ext (a b : App) :
  search_field a = search_field b -> search_base a = search_base b ->
  search_attributes a = search_attributes b ->
  parameters a = parameters b.
Proof.
  intros Hf Hb Ha. unfold parameters, validate_search_parameters.
  rewrite Hf, Hb, Ha.
  destruct (is_empty (search_field b) || str_eqb (search_field b) field_placeholder);
    [reflexivity|].
  destruct (is_empty (search_base b) || str_eqb (search_base b) base_placeholder);
    [reflexivity|].
  destruct (is_empty (search_attributes b)
            || str_eqb (search_attributes b) attributes_placeholder);
    reflexivity.
Qed.

Lemma run_keeps_inputs (d : Directory) (a : App) :
  search_field (run d a) = search_field a
  /\ search_base (run d a) = search_base a
  /\ search_attributes (run d a) = search_attributes a
  /\ left_textbox (run d a) = left_textbox a
  /\ ldap_server_properties (run d a) = ldap_server_properties a.
Proof.
  destruct (parameters a) as [p|] eqn:Hp.
  - destruct (login d a) as [e|] eqn:Hl.
    + rewrite (@run_not_bound d a p e Hp Hl). repeat split.
    + rewrite (@run_bound d a p Hp Hl).
      destruct (batch d p (identifiers a)) as [[rows searched] [e|]];
        [|destruct (unbind d)]; repeat split.
  - destruct (run_rejected d a Hp) as [message ->]. repeat split.
Qed.

(** X1: a press of the search button never changes the three inputs of
    the form, the identifier box or the loaded properties, however the
    run ends. *)
Theorem search_keeps_inputs (d : Directory) (a : App) :
  search_field (run d a) = search_field a
  /\ search_base (run d a) = search_base a
  /\ search_attributes (run d a) = search_attributes a
  /\ left_textbox (run d a) = left_textbox a
  /\ ldap_server_properties (run d a) = ldap_server_properties a.
Proof. exact (run_keeps_inputs d a). Qed.

(** X2: when the bind fails, the results box is left empty (cleared, and
    not even the header is written), no search is issued, the error is
    shown, and the export button stays as it was. *)
Theorem failed_bind_leaves_empty_results (d : Directory) (a : App)
  (p : params) (e : exn) :
  parameters a = Some p -> login d a = Some e ->
  right_textbox (run d a) = []
  /\ searches (trace (run d a)) = searches (trace a)
  /\ trace (run d a) = trace a ++ [bind_event a; error_event e]
  /\ csv_export_button (run d a) = csv_export_button a.
Proof.
  intros Hp Hl. rewrite (@run_not_bound d a p e Hp Hl). simpl.
  rewrite searches_app. simpl. rewrite !app_nil_r. repeat split.
Qed.

Lemma failed_bind_leaves_empty_results_witness :
  let a := set_right_textbox (py "rows of an earlier run")
             (Example.app "uid" "dc=example,dc=com" "cn,mail" [py "jdoe"]) in
  right_textbox (run Files.unreachable a) = []
  /\ searches (trace (run Files.unreachable a)) = []
  /\ trace (run Files.unreachable a)
     = [ bind_event a;
         error_event (Exn (py "LDAPSocketOpenError")
                          (py "invalid server address")) ]
  /\ csv_export_button (run Files.unreachable a) = false.
Proof.
  intros a.
  exact (@failed_bind_leaves_empty_results Files.unreachable a
           {| field := py "uid"; base := py "dc=example,dc=com";
              attributes := [py "uid"; py "cn"; py "mail"] |}
           (Exn (py "LDAPSocketOpenError") (py "invalid server address"))
           eq_refl eq_refl).
Defined.

Lemma last_event (pre evs : list event) (ev : event) :
  pre ++ [ev] = evs ++ [Unbind] -> ev = Unbind.
Proof. intros H. apply app_inj_tail in H. tauto. Qed.

(** X3: after a press of the search button the export button is active
    exactly when it was active before or the last thing the run did was
    the unbind, that is, the session was bound, every line went through
    without an exception and [conn.unbind()] returned; a run never
    disables the button. *)
Theorem export_enabled_by_complete_search (d : Directory) (a : App) :
  csv_export_button (run d a) = true
  <-> csv_export_button a = true
      \/ exists evs, trace (run d a) = trace a ++ evs ++ [Unbind].
Proof.
  destruct (parameters a) as [p|] eqn:Hp.
  - destruct (login d a) as [e|] eqn:Hl.
    + rewrite (@run_not_bound d a p e Hp Hl). simpl.
      split; [auto|]. intros [H|[evs H]]; [exact H|]. exfalso.
      apply app_inv_head in H.
      apply (@last_event [bind_event a] evs) in H. discriminate.
    + rewrite (@run_bound d a p Hp Hl).
      destruct (batch d p (identifiers a)) as [[rows searched] [e|]];
        [|destruct (unbind d) as [e|]]; simpl.
      * split; [auto|]. intros [H|[evs H]]; [exact H|]. exfalso.
        apply app_inv_head in H.
        apply (@last_event (bind_event a :: map (search_event p) searched) evs)
          in H. discriminate.
      * split; [auto|]. intros [H|[evs H]]; [exact H|]. exfalso.
        apply app_inv_head in H.
        assert (He : error_event e = Unbind); [|discriminate].
        apply (@last_event
                 (bind_event a :: map (search_event p) searched ++ [Unbind])
                 evs).
        rewrite <- H. simpl. rewrite <- app_assoc. reflexivity.
      * split; [|reflexivity]. intros _. right.
        exists (bind_event a :: map (search_event p) searched). reflexivity.
  - destruct (run_rejected d a Hp) as [message ->]. simpl.
    split; [auto|]. intros [H|[evs H]]; [exact H|]. exfalso.
    apply app_inv_head in H.
    apply (@last_event [] evs) in H. discriminate.
Qed.

(** X4: pressing the search button a second time, with the form, the
    identifiers and the directory unchanged, gives the same results
    text. *)
Theorem search_again_same_results (d : Directory) (a : App) :
  right_textbox (run d (run d a)) = right_textbox (run d a).
Proof.
  destruct (run_keeps_inputs d a) as (Hf & Hb & Ha & Hleft & Hprops).
  pose proof (parameters_ext (run d a) a Hf Hb Ha) as Hpar.
  assert (Hlog : login d (run d a) = login d a)
    by (unfold login; rewrite Hprops; reflexivity).
  assert (Hids : identifiers (run d a) = identifiers a)
    by (unfold identifiers; rewrite Hleft; reflexivity).
  destruct (parameters a) as [p|] eqn:Hp.
  - destruct (login d a) as [e|] eqn:Hl.
    + rewrite (@run_not_bound d (run d a) p e Hpar Hlog).
      rewrite (@run_not_bound d a p e Hp Hl). reflexivity.
    + rewrite (@run_bound d (run d a) p Hpar Hlog), Hids.
      rewrite (@run_bound d a p Hp Hl).
      destruct (batch d p (identifiers a)) as [[rows searched] [e|]];
        [|destruct (unbind d)]; reflexivity.
  - destruct (run_rejected d (run d a) Hpar) as [message ->]. simpl.
    apply app_nil_r.
Qed.

Lemma batch_complete (d : Directory) (p : params) (ids : list str) :
  snd (batch d p ids) = None -> snd (fst (batch d p ids)) = ids.
Proof.
  induction ids as [|entry rest IH]; simpl; [reflexivity|].
  destruct (lookup d p entry) as [rows [e|]]; simpl; [discriminate|].
  destruct (batch d p rest) as [[rows' searched] e]. simpl in *.
  intros H. rewrite (IH H). reflexivity.
Qed.

(** X5: in every run whose parameters pass validation the session is
    bound once, before anything else; the searches follow, one per line
    from the first on, each under the base as typed and asking for the
    effective attributes; the run ends with the unbind once every line
    has been searched, followed by one error box when the unbind itself
    raises, or it ends with one error box before any unbind. *)
Theorem session_events_in_order (d : Directory) (a : App) (p : params) :
  parameters a = Some p ->
  exists n tail,
    trace (run d a)
    = trace a ++ bind_event a
        :: map (fun entry =>
                  Search (search_base a) (search_filter (search_field a) entry)
                         (attributes p))
               (firstn n (identifiers a))
        ++ tail
    /\ ((tail = [Unbind] /\ firstn n (identifiers a) = identifiers a)
        \/ (exists e, tail = [Unbind; error_event e]
                      /\ firstn n (identifiers a) = identifiers a)
        \/ exists e, tail = [error_event e]).
Proof.
  intros Hp. destruct (validate_Some a Hp) as [_ Hrec].
  assert (Hev : forall entry,
            Search (search_base a) (search_filter (search_field a) entry)
                   (attributes p) = search_event p entry).
  { intros entry. rewrite Hrec. reflexivity. }
  destruct (login d a) as [e|] eqn:Hl.
  - exists O, [error_event e]. rewrite (@run_not_bound d a p e Hp Hl).
    split; [reflexivity | right; right; eauto].
  - rewrite (@run_bound d a p Hp Hl).
    destruct (batch_searched_prefix d p (identifiers a)) as [n Hn].
    pose proof (batch_complete d p (identifiers a)) as Hc.
    destruct (batch d p (identifiers a)) as [[rows searched] [e|]];
      [|destruct (unbind d) as [e|]]; simpl in *; subst searched.
    + exists n, [error_event e].
      rewrite (map_ext _ _ Hev). split; [reflexivity | right; right; eauto].
    + exists n, [Unbind; error_event e].
      rewrite (map_ext _ _ Hev). split; [reflexivity | right; left; eauto].
    + exists n, [Unbind].
      rewrite (map_ext _ _ Hev). split; [reflexivity | left; auto].
Qed.

Lemma session_events_in_order_witness :
  let a := Example.app "uid" "dc=example,dc=com" "cn,mail"
                       [py "jdoe"; py "asmith"] in
  exists n tail,
    trace (run Files.hangs_up a)
    = [] ++ bind_event a
        :: map (fun entry =>
                  Search (py "dc=example,dc=com")
                         (search_filter (py "uid") entry)
                         [py "uid"; py "cn"; py "mail"])
               (firstn n (identifiers a))
        ++ tail
    /\ ((tail = [Unbind] /\ firstn n (identifiers a) = identifiers a)
        \/ (exists e, tail = [Unbind; error_event e]
                      /\ firstn n (identifiers a) = identifiers a)
        \/ exists e, tail = [error_event e]).
Proof.
  intros a.
  exact (@session_events_in_order Files.hangs_up a
           {| field := py "uid"; base := py "dc=example,dc=com";
              attributes := [py "uid"; py "cn"; py "mail"] |} eq_refl).
Defined.






(** * Further properties of the validation *)

Lemma missing_iff (s placeholder : str) :
  is_empty s || str_eqb s placeholder = true
  <-> s = [] \/ s = placeholder.
Proof. rewrite orb_true_iff, is_empty_nil, str_eqb_eq. reflexivity. Qed.

Lemma not_missing_iff (s placeholder : str) :
  is_empty s || str_eqb s placeholder = false
  <-> ~ (s = [] \/ s = placeholder).
Proof.
  rewrite <- missing_iff.
  destruct (is_empty s || str_eqb s placeholder); split; congruence.
Qed.

(** X7: a rejected press shows exactly one warning and changes nothing
    else; the inputs are checked in the order field, base, attributes,
    and the first one that is empty or shows its placeholder decides the
    message, also when several are missing. *)
Theorem rejection_warns_first_missing_input (d : Directory) (a : App) :
  ((search_field a = [] \/ search_field a = field_placeholder) ->
   run d a
   = add_output []
       [ShowWarning (py "Invalid Input") (py "Search field is required.")] a)
  /\ (~ (search_field a = [] \/ search_field a = field_placeholder) ->
      (search_base a = [] \/ search_base a = base_placeholder) ->
      run d a
      = add_output []
          [ShowWarning (py "Invalid Input") (py "Search base is required.")] a)
  /\ (~ (search_field a = [] \/ search_field a = field_placeholder) ->
      ~ (search_base a = [] \/ search_base a = base_placeholder) ->
      (search_attributes a = []
       \/ search_attributes a = attributes_placeholder) ->
      run d a
      = add_output []
          [ShowWarning (py "Invalid Input")
                       (py "At least one search attribute is required.")] a).
Proof.
  unfold run, perform_ldap_search, validate_search_parameters.
  split; [|split].
  - intros Hf. apply missing_iff in Hf.
    unfold bind at 1. rewrite Hf.
    unfold show_warning, bind, emit, ret. simpl.
    rewrite add_output_events. reflexivity.
  - intros Hf Hb. apply not_missing_iff in Hf. apply missing_iff in Hb.
    unfold bind at 1. rewrite Hf, Hb.
    unfold show_warning, bind, emit, ret. simpl.
    rewrite add_output_events. reflexivity.
  - intros Hf Hb Ha. apply not_missing_iff in Hf. apply not_missing_iff in Hb.
    apply missing_iff in Ha.
    unfold bind at 1. rewrite Hf, Hb, Ha.
    unfold show_warning, bind, emit, ret. simpl.
    rewrite add_output_events. reflexivity.
Qed.

Lemma rejection_warns_first_missing_input_witness :
  run Example.directory (Example.app "uid" "" "" [py "jdoe"])
  = add_output []
      [ShowWarning (py "Invalid Input") (py "Search base is required.")]
      (Example.app "uid" "" "" [py "jdoe"]).
Proof.
  apply (proj1 (proj2 (rejection_warns_first_missing_input Example.directory
                         (Example.app "uid" "" "" [py "jdoe"])))).
  - vm_compute. intros [H|H]; discriminate.
  - left. reflexivity.
Defined.

(** ** Trimming *)

Lemma lstrip_snoc (x : str) (c : char) :
  lstrip (x ++ [c])
  = if is_empty (lstrip x)
    then (if isspace c then [] else [c])
    else lstrip x ++ [c].
Proof.
  induction x as [|y x IH]; simpl; [destruct (isspace c); reflexivity|].
  destruct (isspace y); [exact IH | reflexivity].
Qed.

Lemma rstrip_cons (c : char) (r : str) :
  rstrip (c :: r)
  = if is_empty (rstrip r) && isspace c then [] else c :: rstrip r.
Proof.
  unfold rstrip. simpl. rewrite lstrip_snoc.
  destruct (lstrip (rev r)) as [|y l] eqn:Hl; simpl.
  - destruct (isspace c); reflexivity.
  - rewrite rev_app_distr. simpl.
    destruct (rev l ++ [y]) eqn:Hr; [|reflexivity].
    apply app_eq_nil in Hr. destruct Hr; discriminate.
Qed.

Lemma lstrip_rstrip (s : str) : lstrip (rstrip s) = rstrip (lstrip s).
Proof.
  induction s as [|c s IH]; [reflexivity|].
  rewrite rstrip_cons. simpl.
  destruct (isspace c) eqn:Hc.
  - rewrite andb_true_r, <- IH.
    destruct (rstrip s) as [|y l]; simpl; [reflexivity|].
    rewrite Hc. reflexivity.
  - rewrite andb_false_r, rstrip_cons, Hc, andb_false_r. simpl.
    rewrite Hc. reflexivity.
Qed.

Lemma lstrip_idem (s : str) : lstrip (lstrip s) = lstrip s.
Proof.
  induction s as [|c s IH]; [reflexivity|]. simpl.
  destruct (isspace c) eqn:Hc; [exact IH|]. simpl. rewrite Hc. reflexivity.
Qed.

Lemma rstrip_idem (s : str) : rstrip (rstrip s) = rstrip s.
Proof. unfold rstrip. rewrite rev_involutive, lstrip_idem. reflexivity. Qed.

(** Trimming a trimmed text changes nothing. *)
Lemma strip_idem (s : str) : strip (strip s) = strip s.
Proof.
  unfold strip. rewrite lstrip_rstrip, lstrip_idem, rstrip_idem. reflexivity.
Qed.

Lemma lstrip_incl (s : str) (c : char) : In c (lstrip s) -> In c s.
Proof.
  induction s as [|y s IH]; simpl; [tauto|].
  destruct (isspace y); simpl; tauto.
Qed.

Lemma strip_incl (s : str) (c : char) : In c (strip s) -> In c s.
Proof.
  unfold strip, rstrip. intros H. apply in_rev in H. apply lstrip_incl in H.
  apply in_rev in H. apply lstrip_incl in H. exact H.
Qed.

(** No piece of a split holds the separator. *)
Lemma split_pieces (sep : char) (s : str) :
  Forall (fun piece => ~ In sep piece) (split sep s).
Proof.
  induction s as [|c s IH]; simpl.
  - constructor; [tauto | constructor].
  - destruct (N.eqb_spec c sep) as [->|Hne].
    + constructor; [simpl; tauto | exact IH].
    + destruct (split sep s) as [|l ls]; [repeat constructor; simpl; tauto|].
      inversion IH; subst. constructor; [|assumption].
      simpl. intros [H|H]; [congruence | tauto].
Qed.

(** X8: the effective attribute list of a valid form has at least two
    names, the field in front, and none of them holds a comma or has
    whitespace at either end. *)
Theorem effective_attribute_names_are_trimmed (a : App) (p : params) :
  parameters a = Some p ->
  (2 <= length (attributes p))%nat
  /\ Forall (fun attr => strip attr = attr /\ ~ In comma attr) (attributes p).
Proof.
  intros Hp. destruct (validate_Some a Hp) as [_ ->]. simpl.
  rewrite split_app, map_app. split.
  - rewrite length_app, !length_map.
    pose proof (split_not_nil comma (search_field a)).
    pose proof (split_not_nil comma (search_attributes a)).
    destruct (split comma (search_field a)); [congruence|].
    destruct (split comma (search_attributes a)); [congruence|].
    simpl. lia.
  - rewrite <- map_app. apply Forall_map.
    rewrite <- split_app.
    eapply Forall_impl; [|apply split_pieces].
    intros piece Hn. split; [apply strip_idem|].
    intros Hin. apply Hn. exact (strip_incl _ _ Hin).
Qed.

Lemma effective_attribute_names_are_trimmed_witness :
  (2 <= length [py "uid"; py "cn"; py ""; py "mail"])%nat
  /\ Forall (fun attr => strip attr = attr /\ ~ In comma attr)
            [py "uid"; py "cn"; py ""; py "mail"].
Proof.
  exact (@effective_attribute_names_are_trimmed
           (Example.app " uid " "dc=example,dc=com" " cn ,, mail" [])
           {| field := py " uid "; base := py "dc=example,dc=com";
              attributes := [py "uid"; py "cn"; py ""; py "mail"] |}
           eq_refl).
Defined.

(** * Properties of the other handlers *)

(** ** Entries with a placeholder *)

(** X9: once the focus has left an entry, the entry is not empty;
    entering it and leaving it again without typing restores what it
    showed; and the validation takes it as missing exactly when the user
    had left it empty or had typed the placeholder text itself. *)
Theorem placeholder_entry_at_rest (placeholder text : str) :
  placeholder <> [] ->
  focus_out placeholder text <> []
  /\ focus_out placeholder (focus_in placeholder (focus_out placeholder text))
     = focus_out placeholder text
  /\ (is_empty (focus_out placeholder text)
      || str_eqb (focus_out placeholder text) placeholder = true
      <-> text = [] \/ text = placeholder).
Proof.
  intros Hph.
  assert (Hout : focus_out placeholder text
                 = if is_empty text then placeholder else text).
  { unfold focus_out. destruct text; simpl; [apply app_nil_r | reflexivity]. }
  assert (Hnil : focus_out placeholder [] = placeholder)
    by (unfold focus_out; simpl; apply app_nil_r).
  rewrite missing_iff, Hout.
  destruct text as [|c text]; simpl.
  - split; [exact Hph|]. split; [|tauto].
    unfold focus_in. rewrite str_eqb_refl. exact Hnil.
  - split; [discriminate|]. split; [|tauto].
    unfold focus_in. destruct (str_eqb (c :: text) placeholder) eqn:He.
    + apply str_eqb_eq in He. rewrite Hnil. congruence.
    + reflexivity.
Qed.

Lemma placeholder_entry_at_rest_witness :
  focus_out field_placeholder [] <> []
  /\ focus_out field_placeholder
       (focus_in field_placeholder (focus_out field_placeholder []))
     = focus_out field_placeholder []
  /\ (is_empty (focus_out field_placeholder [])
      || str_eqb (focus_out field_placeholder []) field_placeholder = true
      <-> ([] : str) = [] \/ [] = field_placeholder).
Proof.
  apply (@placeholder_entry_at_rest field_placeholder []).
  vm_compute. discriminate.
Defined.

(** ** Loading the identifiers *)

(** X10: after a file has been loaded, a search runs over the lines of
    the trimmed file content: blank lines and whitespace at the start
    and at the end of the file do not count. *)
Theorem loaded_file_gives_identifiers (disk : Disk) (csv_file s : str)
  (w : Window) :
  csv_file <> [] -> read_file disk csv_file = Contents s ->
  left_textbox (gui (load_csv disk csv_file w)) = strip s
  /\ identifiers (gui (load_csv disk csv_file w)) = splitlines (strip s).
Proof.
  intros Hne Hr. unfold load_csv.
  destruct csv_file; [congruence|]. simpl. rewrite Hr. simpl.
  split; [reflexivity|].
  unfold identifiers. simpl. rewrite strip_text_get, strip_idem. reflexivity.
Qed.

Lemma loaded_file_gives_identifiers_witness :
  left_textbox (gui (load_csv Files.disk (py "ids.csv") init))
  = join [LF] [py "jdoe"; py "asmith"]
  /\ identifiers (gui (load_csv Files.disk (py "ids.csv") init))
     = [py "jdoe"; py "asmith"].
Proof.
  refine (@loaded_file_gives_identifiers Files.disk (py "ids.csv")
            (join [LF] [py ""; py "jdoe"; py "asmith"; py ""; py ""])
            init _ eq_refl).
  vm_compute. discriminate.
Defined.

(** X11: a cancelled dialog changes nothing; a file that cannot be
    opened leaves the identifier box as it was and shows the error; a
    file that opens but cannot be read leaves the identifier box empty,
    its earlier content lost, and shows the error. *)
Theorem failed_load (disk : Disk) (csv_file : str) (w : Window) :
  (csv_file = [] -> load_csv disk csv_file w = w)
  /\ (forall e, csv_file <> [] -> read_file disk csv_file = OpenFails e ->
        left_textbox (gui (load_csv disk csv_file w)) = left_textbox (gui w)
        /\ trace (gui (load_csv disk csv_file w))
           = trace (gui w)
             ++ [ShowError (py "Error loading CSV")
                           (exn_class e ++ py ": " ++ exn_message e)])
  /\ (forall e, csv_file <> [] -> read_file disk csv_file = ReadFails e ->
        left_textbox (gui (load_csv disk csv_file w)) = []
        /\ trace (gui (load_csv disk csv_file w))
           = trace (gui w)
             ++ [ShowError (py "Error loading CSV")
                           (exn_class e ++ py ": " ++ exn_message e)]).
Proof.
  split; [intros ->; reflexivity|]. unfold load_csv.
  split; intros e Hne Hr; (destruct csv_file; [congruence|]);
    cbv [is_empty negb]; rewrite Hr; split; reflexivity.
Qed.

Lemma failed_load_witness :
  let w := set_gui (set_left_textbox (py "jdoe") (gui init)) init in
  left_textbox (gui (load_csv Files.disk (py "binary.csv") w)) = []
  /\ trace (gui (load_csv Files.disk (py "binary.csv") w))
     = [ShowError (py "Error loading CSV")
                  (py "UnicodeDecodeError: invalid start byte")].
Proof.
  intros w.
  refine (proj2 (proj2 (failed_load Files.disk (py "binary.csv") w))
            (Exn (py "UnicodeDecodeError") (py "invalid start byte"))
            _ eq_refl).
  vm_compute. discriminate.
Defined.

(** ** Exporting the results *)

Lemma writerows_ok (disk : Disk) (path : str) (lines : list str) (n : nat) :
  (forall k row, write_row disk path k row = None) ->
  writerows disk path n lines
  = (map (fun line => WriteRow [line]) lines, None).
Proof.
  intros Hw. revert n; induction lines as [|line rest IH]; intros n; simpl;
    [reflexivity|].
  rewrite Hw, IH. reflexivity.
Qed.

Lemma written_app (t1 t2 : list desk_event) :
  written (t1 ++ t2) = written t1 ++ written t2.
Proof.
  induction t1 as [|ev t1 IH]; simpl; [reflexivity|].
  destruct ev; simpl; rewrite IH; reflexivity.
Qed.

Lemma written_rows (lines : list str) :
  written (map (fun line => WriteRow [line]) lines)
  = map (fun line => [line]) lines.
Proof. induction lines; simpl; congruence. Qed.

(** X12: exporting results that are empty or whitespace only opens no
    file and shows the "Empty Content" warning; a cancelled dialog does
    nothing at all. *)
Theorem export_of_blank_results (disk : Disk) (csv_file : str) (w : Window) :
  (csv_file = [] -> export_csv disk csv_file w = w)
  /\ (csv_file <> [] ->
      forallb isspace (right_textbox (gui w)) = true ->
      export_csv disk csv_file w
      = set_gui (add_output []
                   [ShowWarning (py "Empty Content")
                                (py "The results textbox is empty.")]
                   (gui w)) w).
Proof.
  split; [intros ->; reflexivity|]. intros Hne Hb. unfold export_csv.
  destruct csv_file; [congruence|]. cbv [is_empty negb].
  rewrite strip_text_get, (strip_blank _ Hb).
  unfold show_warning, emit. simpl. rewrite add_output_events. reflexivity.
Qed.

Lemma export_of_blank_results_witness :
  export_csv Files.disk (py "out.csv")
    (set_gui (set_right_textbox [LF; 32; LF] (gui init)) init)
  = set_gui (add_output []
               [ShowWarning (py "Empty Content")
                            (py "The results textbox is empty.")]
               (set_right_textbox [LF; 32; LF] (gui init)))
      (set_gui (set_right_textbox [LF; 32; LF] (gui init)) init).
Proof.
  refine (proj2 (export_of_blank_results Files.disk (py "out.csv")
            (set_gui (set_right_textbox [LF; 32; LF] (gui init)) init))
            _ eq_refl).
  vm_compute. discriminate.
Defined.

Lemma export_csv_writes (disk : Disk) (csv_file : str) (w : Window) :
  csv_file <> [] -> strip (right_textbox (gui w)) <> [] ->
  open_write disk csv_file = None ->
  (forall k row, write_row disk csv_file k row = None) ->
  close_write disk csv_file = None ->
  export_csv disk csv_file w
  = log_desk
      (OpenWrite csv_file
         :: map (fun line => WriteRow [line])
                (splitlines (strip (right_textbox (gui w))))
         ++ [ShowInfo (py "Success") (py "The file was successfully saved.")])
      w.
Proof.
  intros Hne Hc Ho Hw Hcl. unfold export_csv.
  destruct csv_file as [|c0 path]; [congruence|]. cbv [is_empty negb].
  rewrite strip_text_get.
  destruct (strip (right_textbox (gui w))) as [|c content] eqn:Hs;
    [congruence|].
  rewrite Ho, (writerows_ok _ _ _ _ Hw), Hcl.
  unfold log_desk. simpl. rewrite <- !app_assoc. reflexivity.
Qed.

(** X13: when the file can be opened, written and closed, the export
    hands the writer one row per line of the trimmed results text, each
    row holding the whole line as its single field (the line is not
    split at the semicolons), then shows the success box; the widgets
    are left as they were. *)
Theorem export_writes_each_line_as_one_field (disk : Disk) (csv_file : str)
  (w : Window) :
  csv_file <> [] -> strip (right_textbox (gui w)) <> [] ->
  open_write disk csv_file = None ->
  (forall k row, write_row disk csv_file k row = None) ->
  close_write disk csv_file = None ->
  export_csv disk csv_file w
  = log_desk
      (OpenWrite csv_file
         :: map (fun line => WriteRow [line])
                (splitlines (strip (right_textbox (gui w))))
         ++ [ShowInfo (py "Success") (py "The file was successfully saved.")])
      w.
Proof. exact (@export_csv_writes disk csv_file w). Qed.

Lemma export_writes_each_line_as_one_field_witness :
  let w := set_gui (set_right_textbox
                      (render [ [py "uid"; py "cn"];
                                [py "jdoe"; py "John Doe"] ])
                      (gui init)) init in
  written (desk (export_csv Files.disk (py "out.csv") w))
  = [[py "uid;cn"]; [py "jdoe;John Doe"]].
Proof.
  intros w.
  rewrite (@export_writes_each_line_as_one_field Files.disk (py "out.csv") w).
  - reflexivity.
  - vm_compute. discriminate.
  - vm_compute. discriminate.
  - reflexivity.
  - reflexivity.
  - reflexivity.
Defined.

Lemma infos_app (t1 t2 : list desk_event) :
  infos (t1 ++ t2) = (infos t1 + infos t2)%nat.
Proof.
  induction t1 as [|ev t1 IH]; simpl; [reflexivity|].
  destruct ev; simpl; rewrite IH; reflexivity.
Qed.

Lemma writerows_infos (disk : Disk) (path : str) (lines : list str) (n : nat) :
  infos (fst (writerows disk path n lines)) = O.
Proof.
  revert n; induction lines as [|line rest IH]; intros n; simpl;
    [reflexivity|].
  destruct (write_row disk path n [line]); simpl; [reflexivity|].
  specialize (IH (S n)).
  destruct (writerows disk path (S n) rest) as [evs e]. exact IH.
Qed.

(** X14: the export of results that are not blank ends in exactly one of
    two ways: the success box and no error box, when the file was
    opened, every row written and the file closed without an exception;
    otherwise one error box and no success box. *)
Theorem export_reports_success_or_error (disk : Disk) (csv_file : str)
  (w : Window) :
  csv_file <> [] -> strip (right_textbox (gui w)) <> [] ->
  (open_write disk csv_file = None
   /\ snd (writerows disk csv_file O
             (splitlines (strip (right_textbox (gui w))))) = None
   /\ close_write disk csv_file = None ->
   infos (desk (export_csv disk csv_file w)) = S (infos (desk w))
   /\ gui (export_csv disk csv_file w) = gui w)
  /\ (~ (open_write disk csv_file = None
         /\ snd (writerows disk csv_file O
                   (splitlines (strip (right_textbox (gui w))))) = None
         /\ close_write disk csv_file = None) ->
      infos (desk (export_csv disk csv_file w)) = infos (desk w)
      /\ exists e,
           trace (gui (export_csv disk csv_file w))
           = trace (gui w)
             ++ [ShowError (py "Error exporting CSV")
                           (exn_class e ++ py ": " ++ exn_message e)]).
Proof.
  intros Hne Hc. unfold export_csv.
  destruct csv_file as [|c0 path]; [congruence|]. cbv [is_empty negb].
  rewrite strip_text_get.
  destruct (strip (right_textbox (gui w))) as [|c content] eqn:Hs;
    [congruence|].
  pose proof (writerows_infos disk (c0 :: path) (splitlines (c :: content)) O)
    as Hi.
  destruct (open_write disk (c0 :: path)) as [eo|].
  { split; [intros [H _]; discriminate|]. intros _. simpl.
    rewrite infos_app. simpl. split; [lia | eauto]. }
  destruct (writerows disk (c0 :: path) O (splitlines (c :: content)))
    as [evs r].
  simpl in Hi.
  destruct (close_write disk (c0 :: path)) as [ec|].
  { split; [intros (_ & _ & H); discriminate|]. intros _. simpl.
    rewrite !infos_app, Hi. simpl. split; [lia | eauto]. }
  destruct r as [er|].
  { split; [intros (_ & H & _); discriminate|]. intros _. simpl.
    rewrite !infos_app, Hi. simpl. split; [lia | eauto]. }
  split; [|intros H; exfalso; apply H; auto].
  intros _. simpl. rewrite !infos_app, Hi. simpl. split; [lia|].
  destruct w as [a b t]. destruct a. reflexivity.
Qed.

Lemma export_reports_success_or_error_witness :
  let w := set_gui (set_right_textbox (render [[py "uid"; py "cn"]])
                                      (gui init)) init in
  infos (desk (export_csv Files.disk (py "out.csv") w)) = 1%nat
  /\ gui (export_csv Files.disk (py "out.csv") w) = gui w.
Proof.
  intros w.
  refine (proj1 (@export_reports_success_or_error Files.disk (py "out.csv") w
                   _ _) _).
  - vm_compute. discriminate.
  - vm_compute. discriminate.
  - split; [reflexivity|]. split; reflexivity.
Defined.

(** ** Choosing the properties file *)

(** X16: choosing a properties file always enables the search button
    and replaces the properties loaded before; when the file cannot be
    parsed an error box is shown, the properties become empty, and a
    search then binds with no server, no user and no password. *)
Theorem selected_properties_replace_earlier (disk : Disk) (file : str)
  (w : Window) :
  file <> [] ->
  ldap_search_button (select_ldap_server disk file w) = true
  /\ (forall props, config_items disk file = inr props ->
        ldap_server_properties (gui (select_ldap_server disk file w)) = props
        /\ trace (gui (select_ldap_server disk file w)) = trace (gui w))
  /\ (forall e, config_items disk file = inl e ->
        ldap_server_properties (gui (select_ldap_server disk file w)) = []
        /\ bind_event (gui (select_ldap_server disk file w))
           = Bind None None None
        /\ trace (gui (select_ldap_server disk file w))
           = trace (gui w)
             ++ [ShowError (py "Error")
                           (py "Failed to read properties file: "
                            ++ exn_message e)]).
Proof.
  intros Hne. unfold select_ldap_server, read_properties_file.
  destruct file as [|c0 path]; [congruence|]. cbv [is_empty negb].
  destruct (config_items disk (c0 :: path)) as [e|props]; simpl.
  - split; [reflexivity|]. split; [discriminate|].
    intros e' H; inversion H; subst. repeat split.
  - split; [reflexivity|]. split; [|discriminate].
    intros props' H; inversion H; subst. split; reflexivity.
Qed.

Lemma selected_properties_replace_earlier_witness :
  ldap_search_button (select_ldap_server Files.disk (py "broken.ini") init)
  = true
  /\ bind_event (gui (select_ldap_server Files.disk (py "broken.ini")
                        (select_ldap_server Files.disk (py "server.ini") init)))
     = Bind None None None.
Proof.
  split.
  - refine (proj1 (@selected_properties_replace_earlier Files.disk
                     (py "broken.ini") init _)).
    vm_compute. discriminate.
  - refine (proj1 (proj2 (proj2 (proj2
              (@selected_properties_replace_earlier Files.disk
                 (py "broken.ini")
                 (select_ldap_server Files.disk (py "server.ini") init) _))
              (Exn (py "MissingSectionHeaderError")
                   (py "File contains no section headers."))
              eq_refl))).
    vm_compute. discriminate.
Defined.

(** * The window in use *)

Lemma run_counts (d : Directory) (a : App) :
  exists b u,
    binds (trace (run d a)) = (binds (trace a) + b)%nat
    /\ unbinds (trace (run d a)) = (unbinds (trace a) + u)%nat
    /\ (u <= b)%nat
    /\ (csv_export_button (run d a) = true ->
        csv_export_button a = true \/ (1 <= u)%nat).
Proof.
  destruct (parameters a) as [p|] eqn:Hp.
  - destruct (login d a) as [e|] eqn:Hl.
    + exists 1%nat, O. rewrite (@run_not_bound d a p e Hp Hl). simpl.
      rewrite binds_app, unbinds_app. simpl. repeat split; auto.
    + rewrite (@run_bound d a p Hp Hl).
      assert (Hb : forall l, binds (map (search_event p) l) = O)
        by (induction l; simpl; auto).
      destruct (batch d p (identifiers a)) as [[rows searched] [e|]];
        [|destruct (unbind d)]; simpl;
        rewrite binds_app, unbinds_app; simpl;
        rewrite binds_app, unbinds_app, unbinds_search_events, Hb; simpl.
      * exists 1%nat, O. repeat split; auto.
      * exists 1%nat, 1%nat. repeat split; auto.
      * exists 1%nat, 1%nat. repeat split; auto.
  - destruct (run_rejected d a Hp) as [message ->]. exists O, O. simpl.
    rewrite binds_app, unbinds_app. simpl. repeat split; auto.
Qed.

(** The handlers other than the search neither bind nor unbind, and
    leave both buttons as they were, but for the choice of a properties
    file, which enables the search. *)
Lemma load_csv_counts (disk : Disk) (path : str) (w : Window) :
  binds (trace (gui (load_csv disk path w))) = binds (trace (gui w))
  /\ unbinds (trace (gui (load_csv disk path w))) = unbinds (trace (gui w))
  /\ csv_export_button (gui (load_csv disk path w))
     = csv_export_button (gui w)
  /\ ldap_search_button (load_csv disk path w) = ldap_search_button w
  /\ opened_for_writing (desk (load_csv disk path w))
     = opened_for_writing (desk w).
Proof.
  assert (Ho : opened_for_writing (desk w ++ [OpenRead path])
               = opened_for_writing (desk w)).
  { induction (desk w) as [|ev t IH]; simpl; [reflexivity|].
    destruct ev; simpl; rewrite IH; reflexivity. }
  unfold load_csv. destruct path as [|c0 path']; [repeat split|].
  cbv [is_empty negb].
  destruct (read_file disk (c0 :: path')); simpl;
    rewrite ?binds_app, ?unbinds_app, ?Ho; simpl; repeat split; lia.
Qed.

Lemma select_ldap_server_counts (disk : Disk) (path : str) (w : Window) :
  binds (trace (gui (select_ldap_server disk path w))) = binds (trace (gui w))
  /\ unbinds (trace (gui (select_ldap_server disk path w)))
     = unbinds (trace (gui w))
  /\ csv_export_button (gui (select_ldap_server disk path w))
     = csv_export_button (gui w)
  /\ (ldap_search_button (select_ldap_server disk path w) = false ->
      ldap_search_button w = false)
  /\ desk (select_ldap_server disk path w) = desk w.
Proof.
  unfold select_ldap_server, read_properties_file.
  destruct path as [|c0 path']; [repeat split; auto|].
  cbv [is_empty negb].
  destruct (config_items disk (c0 :: path')); simpl;
    rewrite ?binds_app, ?unbinds_app; simpl;
    repeat split; try lia; discriminate.
Qed.

Lemma export_csv_counts (disk : Disk) (path : str) (w : Window) :
  binds (trace (gui (export_csv disk path w))) = binds (trace (gui w))
  /\ unbinds (trace (gui (export_csv disk path w))) = unbinds (trace (gui w))
  /\ csv_export_button (gui (export_csv disk path w))
     = csv_export_button (gui w)
  /\ ldap_search_button (export_csv disk path w) = ldap_search_button w.
Proof.
  unfold export_csv. destruct path as [|c0 path']; [repeat split|].
  cbv [is_empty negb].
  destruct (strip (text_get (right_textbox (gui w)))) as [|c content].
  { simpl. rewrite binds_app, unbinds_app. simpl. repeat split; lia. }
  destruct (open_write disk (c0 :: path')).
  { simpl. rewrite binds_app, unbinds_app. simpl. repeat split; lia. }
  destruct (writerows disk (c0 :: path') O (splitlines (c :: content)))
    as [evs r].
  destruct (close_write disk (c0 :: path')); [|destruct r]; simpl;
    rewrite ?binds_app, ?unbinds_app; simpl; repeat split; lia.
Qed.

Lemma step_well_formed (w : Window) (act : action) :
  well_formed w -> well_formed (step w act).
Proof.
  intros (H1 & H2 & H3 & H4). destruct act; simpl;
    try (repeat split; assumption).
  - destruct (load_csv_counts disk path w) as (Eb & Eu & Ec & El & Eo).
    unfold well_formed. rewrite Eb, Eu, Ec, El, Eo. auto.
  - unfold click_export.
    destruct (csv_export_button (gui w)) eqn:Hc;
      [|repeat split; auto; congruence].
    destruct (export_csv_counts disk path w) as (Eb & Eu & Ec & El).
    unfold well_formed. rewrite Eb, Eu, Ec, El.
    repeat split; auto.
  - destruct (select_ldap_server_counts disk path w) as (Eb & Eu & Ec & El & Eo).
    unfold well_formed. rewrite Eb, Eu, Ec, Eo.
    repeat split; auto.
  - unfold click_search.
    destruct (ldap_search_button w) eqn:Hb; [|repeat split; auto].
    destruct (run_counts d (gui w)) as (b & u & Eb & Eu & Hub & Hc).
    unfold well_formed. simpl. rewrite Eb, Eu, Hb.
    repeat split; try lia; try discriminate.
    + intros Hex. destruct (Hc Hex) as [H|H]; [apply H2 in H|]; lia.
    + intros Ho. apply H4 in Ho. lia.
Qed.

Lemma session_well_formed (acts : list action) : well_formed (session acts).
Proof.
  unfold session.
  assert (H : forall w, well_formed w -> well_formed (fold_left step acts w)).
  { induction acts as [|act acts IH]; intros w Hw; simpl; [exact Hw|].
    apply IH. apply step_well_formed. exact Hw. }
  apply H. unfold well_formed, init. simpl.
  repeat split; auto; congruence.
Qed.

Lemma session_snoc (acts : list action) (act : action) :
  session (acts ++ [act]) = step (session acts) act.
Proof. unfold session. rewrite fold_left_app. reflexivity. Qed.

(** The search button of a new window stays disabled until a properties
    file is chosen. *)
Lemma search_button_needs_properties (acts : list action) :
  (forall disk path, In (ClickSelectLdapServer disk path) acts -> path = []) ->
  ldap_search_button (session acts) = false.
Proof.
  induction acts as [|act acts IH] using rev_ind; intros H; [reflexivity|].
  assert (Hb : ldap_search_button (session acts) = false).
  { apply IH. intros disk path Hin. apply (H disk path).
    apply in_or_app. left. exact Hin. }
  rewrite session_snoc. destruct act; simpl; try exact Hb.
  - destruct (load_csv_counts disk path (session acts)) as (_ & _ & _ & El & _).
    rewrite El. exact Hb.
  - unfold click_export.
    destruct (csv_export_button (gui (session acts))); [|exact Hb].
    destruct (export_csv_counts disk path (session acts)) as (_ & _ & _ & El).
    rewrite El. exact Hb.
  - rewrite (H disk path); [exact Hb|].
    apply in_or_app. right. left. reflexivity.
  - unfold click_search. rewrite Hb. exact Hb.
Qed.

(** X17: whatever the user does with a new window (editing any widget,
    clicking any button, in any order), as long as no properties file
    has been chosen the search button is disabled and no session has
    been bound; and the sessions closed never outnumber the sessions
    bound. *)
Theorem sessions_bound_after_properties_chosen (acts : list action) :
  ((forall disk path,
      In (ClickSelectLdapServer disk path) acts -> path = []) ->
   ldap_search_button (session acts) = false
   /\ binds (trace (gui (session acts))) = O)
  /\ (unbinds (trace (gui (session acts)))
      <= binds (trace (gui (session acts))))%nat.
Proof.
  destruct (session_well_formed acts) as (H1 & _ & H3 & _).
  split; [|exact H1].
  intros H. pose proof (search_button_needs_properties acts H) as Hb. auto.
Qed.

Lemma sessions_bound_after_properties_chosen_witness :
  let acts := [ EditField (py "uid"); EditBase (py "dc=example,dc=com");
                EditAttributes (py "cn,mail");
                ClickSelectLdapServer Files.disk [];
                ClickLoadCsv Files.disk (py "ids.csv");
                ClickLdapSearch Example.directory ] in
  ldap_search_button (session acts) = false
  /\ binds (trace (gui (session acts))) = O.
Proof.
  intros acts.
  apply (proj1 (sessions_bound_after_properties_chosen acts)).
  intros disk path Hin. simpl in Hin.
  repeat (destruct Hin as [Hin|Hin]; [try discriminate|]).
  - inversion Hin. reflexivity.
  - contradiction.
Defined.

(** X18: whatever the user does with a new window, in any order, the
    export button is active, and a file has been opened for writing,
    only after some search has run to its unbind. *)
Theorem export_only_after_complete_search (acts : list action) :
  (csv_export_button (gui (session acts)) = true ->
   (1 <= unbinds (trace (gui (session acts))))%nat)
  /\ (opened_for_writing (desk (session acts)) <> [] ->
      (1 <= unbinds (trace (gui (session acts))))%nat).
Proof.
  destruct (session_well_formed acts) as (_ & H2 & _ & H4). auto.
Qed.

(** * From the search to the exported file *)

Lemma splitlines_line (line rest : str) :
  forallb (fun c => negb (is_linebreak c)) line = true ->
  splitlines (line ++ LF :: rest) = line :: splitlines rest.
Proof.
  induction line as [|c line IH]; simpl; [reflexivity|].
  rewrite andb_true_iff, negb_true_iff. intros [Hc Hl].
  rewrite Hc, (IH Hl). reflexivity.
Qed.

Lemma splitlines_single (line : str) :
  line <> [] ->
  forallb (fun c => negb (is_linebreak c)) line = true ->
  splitlines line = [line].
Proof.
  induction line as [|c line IH]; [congruence|]. intros _. simpl.
  rewrite andb_true_iff, negb_true_iff. intros [Hc Hl]. rewrite Hc.
  destruct line as [|c' line']; [reflexivity|].
  rewrite IH; [reflexivity | discriminate | exact Hl].
Qed.

(** Lines without a line boundary, the last one not empty, joined by
    newlines and split again. *)
Lemma splitlines_join (lines : list str) :
  Forall (fun line => forallb (fun c => negb (is_linebreak c)) line = true)
         lines ->
  last lines [] <> [] ->
  splitlines (join [LF] lines) = lines.
Proof.
  induction lines as [|line rest IH]; [reflexivity|].
  intros Hall Hlast. inversion Hall as [|? ? Hline Hrest]; subst.
  destruct rest as [|line' rest'].
  - simpl in *. apply splitlines_single; assumption.
  - change (join [LF] (line :: line' :: rest'))
      with (line ++ LF :: join [LF] (line' :: rest')).
    rewrite (splitlines_line _ _ Hline), IH; auto.
Qed.

Lemma concat_lines (lines : list str) :
  lines <> [] ->
  concat (map (fun line => line ++ [LF]) lines) = join [LF] lines ++ [LF].
Proof.
  induction lines as [|line rest IH]; [congruence|]. intros _.
  destruct rest as [|line' rest']; simpl.
  - rewrite app_nil_r. reflexivity.
  - simpl in IH. rewrite IH by discriminate.
    rewrite <- !app_assoc. reflexivity.
Qed.

Lemma lstrip_head (s : str) (c : char) (r : str) :
  lstrip s = c :: r -> isspace c = false.
Proof.
  induction s as [|y s IH]; simpl; [discriminate|].
  destruct (isspace y) eqn:Hy; [exact IH|].
  intros H; inversion H; subst. exact Hy.
Qed.

Lemma strip_head (s : str) (c : char) (r : str) :
  strip s = c :: r -> isspace c = false.
Proof.
  unfold strip. rewrite <- lstrip_rstrip. apply lstrip_head.
Qed.

(** A text that neither starts nor ends with whitespace is its own
    trimming. *)
Lemma strip_fixed (c c' : char) (middle x : str) :
  isspace c = false -> isspace c' = false ->
  c :: middle = x ++ [c'] ->
  strip (c :: middle) = c :: middle.
Proof.
  intros Hc Hc' He. unfold strip. simpl. rewrite Hc.
  rewrite He. unfold rstrip. rewrite rev_app_distr. simpl. rewrite Hc'.
  simpl. rewrite rev_involutive. reflexivity.
Qed.

Lemma join_first (sep line : str) (rest : list str) :
  exists tail, join sep (line :: rest) = line ++ tail.
Proof.
  destruct rest as [|line' rest'].
  - exists []. simpl. rewrite app_nil_r. reflexivity.
  - eexists. reflexivity.
Qed.

Lemma join_last (sep : str) (lines : list str) :
  lines <> [] ->
  exists front, join sep lines = front ++ last lines [].
Proof.
  induction lines as [|line rest IH]; [congruence|]. intros _.
  destruct rest as [|line' rest'].
  - exists []. reflexivity.
  - destruct IH as [front Hf]; [discriminate|].
    exists (line ++ sep ++ front).
    change (join sep (line :: line' :: rest'))
      with (line ++ sep ++ join sep (line' :: rest')).
    rewrite Hf, <- !app_assoc. reflexivity.
Qed.

(** The results text of a table, read back line by line as the export
    does. *)
Lemma results_text_lines (lines : list str) (c c' : char) (r x : str) :
  Forall (fun line => forallb (fun c => negb (is_linebreak c)) line = true)
         lines ->
  hd [] lines = c :: r -> isspace c = false ->
  last lines [] = x ++ [c'] -> isspace c' = false ->
  splitlines (strip (text_get (concat (map (fun line => line ++ [LF]) lines))))
  = lines.
Proof.
  intros Hall Hhd Hc Hlast Hc'.
  assert (Hne : lines <> []) by (destruct lines; [discriminate | congruence]).
  rewrite (concat_lines Hne). unfold text_get. rewrite <- app_assoc.
  rewrite strip_spaces_r by reflexivity.
  assert (Hs : strip (join [LF] lines) = join [LF] lines).
  { destruct lines as [|line rest]; [congruence|]. simpl in Hhd. subst line.
    destruct (join_first [LF] (c :: r) rest) as [tail Ht].
    destruct (@join_last [LF] ((c :: r) :: rest) Hne) as [front Hf].
    assert (E : c :: (r ++ tail) = (front ++ x) ++ [c']).
    { transitivity (join [LF] ((c :: r) :: rest)); [symmetry; exact Ht|].
      transitivity (front ++ last ((c :: r) :: rest) []); [exact Hf|].
      rewrite <- app_assoc. f_equal. exact Hlast. }
    transitivity (strip (c :: (r ++ tail))); [f_equal; exact Ht|].
    transitivity (c :: (r ++ tail)); [|symmetry; exact Ht].
    exact (@strip_fixed c c' (r ++ tail) (front ++ x) Hc Hc' E). }
  rewrite Hs. apply splitlines_join; [exact Hall|].
  rewrite Hlast. destruct x; discriminate.
Qed.

(** The header line starts with a character that is not whitespace. *)
Lemma header_head (a : App) (p : params) :
  parameters a = Some p ->
  exists c r, join semicolon (attributes p) = c :: r /\ isspace c = false.
Proof.
  intros Hp. destruct (validate_Some a Hp) as [_ ->]. simpl.
  rewrite split_app, map_app.
  pose proof (split_not_nil comma (search_field a)) as Hf.
  pose proof (split_not_nil comma (search_attributes a)) as Ha.
  destruct (split comma (search_field a)) as [|piece pieces]; [congruence|].
  destruct (split comma (search_attributes a)) as [|piece' pieces'];
    [congruence|].
  simpl.
  destruct (join_first semicolon (strip piece)
              (map strip pieces ++ strip piece' :: map strip pieces'))
    as [tail Ht].
  destruct (strip piece) as [|c r] eqn:Hs.
  - destruct (map strip pieces ++ strip piece' :: map strip pieces') eqn:Hm.
    + destruct (map strip pieces); discriminate.
    + simpl. eexists _, _. split; reflexivity.
  - exists c, (r ++ tail). split; [exact Ht|].
    exact (strip_head _ Hs).
Qed.

(** X15: a search that binds, runs through every line and unbinds
    without an exception, followed by an export to a file that can be
    written, hands the writer exactly the table: the header and then one
    row per matched entry, in order, each as the single field "a;b;c",
    provided no cell holds a line boundary and the last line does not
    end in whitespace. *)
Theorem exported_rows_are_table_lines (d : Directory) (disk : Disk)
  (csv_file : str) (w : Window) (p : params)
  (table : list (list (list str))) (x : str) (c' : char) :
  ldap_search_button w = true ->
  parameters (gui w) = Some p -> login d (gui w) = None ->
  Forall2 (answers d p) (identifiers (gui w)) table ->
  unbind d = None ->
  Forall (fun line => forallb (fun c => negb (is_linebreak c)) line = true)
         (map (join semicolon) (attributes p :: concat table)) ->
  last (map (join semicolon) (attributes p :: concat table)) [] = x ++ [c'] ->
  isspace c' = false ->
  csv_file <> [] -> open_write disk csv_file = None ->
  (forall k row, write_row disk csv_file k row = None) ->
  close_write disk csv_file = None ->
  written (desk (click_export disk csv_file (click_search d w)))
  = written (desk w)
    ++ map (fun row => [join semicolon row]) (attributes p :: concat table).
Proof.
  intros Hbutton Hp Hl Ht Hu Hall Hlast Hc' Hne Ho Hw Hcl.
  unfold click_search. rewrite Hbutton.
  unfold click_export.
  rewrite (@run_complete d (gui w) p table Hp Hl Ht), Hu.
  change (csv_export_button (gui (set_gui _ w))) with true. cbv iota.
  set (rows := attributes p :: concat table) in *.
  set (w1 := set_gui _ w).
  assert (Hr : right_textbox (gui w1)
               = concat (map (fun line => line ++ [LF])
                             (map (join semicolon) rows))).
  { unfold w1. simpl. unfold render, row_line. rewrite map_map. reflexivity. }
  destruct (@header_head (gui w) p Hp) as (c & r & Hh & Hc).
  assert (Hlines : splitlines (strip (right_textbox (gui w1)))
                   = map (join semicolon) rows).
  { rewrite <- strip_text_get, Hr.
    exact (@results_text_lines (map (join semicolon) rows) c c' r x
             Hall Hh Hc Hlast Hc'). }
  assert (Hnb : strip (right_textbox (gui w1)) <> []).
  { intros He. rewrite He in Hlines. discriminate. }
  rewrite (@export_csv_writes disk csv_file w1 Hne Hnb Ho Hw Hcl).
  rewrite Hlines. unfold log_desk. simpl.
  rewrite written_app. simpl. rewrite written_app, written_rows. simpl.
  rewrite app_nil_r, map_map. reflexivity.
Qed.

Lemma exported_rows_are_table_lines_witness :
  written (desk (click_export Files.disk (py "out.csv")
    (click_search Example.directory
       (set_ldap_search_button true
          (set_gui (Example.app "uid" "dc=example,dc=com" "cn,mail"
                                [py "jdoe"; py "nobody"; py "asmith"])
                   init)))))
  = [ [py "uid;cn;mail"];
      [py "jdoe;John Doe;jdoe@example.com"];
      [py "asmith;Ann Smith;asmith@example.com"] ].
Proof.
  refine (@exported_rows_are_table_lines Example.directory Files.disk
            (py "out.csv")
            (set_ldap_search_button true
               (set_gui (Example.app "uid" "dc=example,dc=com" "cn,mail"
                                     [py "jdoe"; py "nobody"; py "asmith"])
                        init))
            {| field := py "uid"; base := py "dc=example,dc=com";
               attributes := [py "uid"; py "cn"; py "mail"] |}
            [ [[py "jdoe"; py "John Doe"; py "jdoe@example.com"]]; [];
              [[py "asmith"; py "Ann Smith"; py "asmith@example.com"]] ]
            (py "asmith;Ann Smith;asmith@example.co") 109
            eq_refl eq_refl eq_refl _ eq_refl _ eq_refl eq_refl _ eq_refl
            (fun _ _ => eq_refl) eq_refl).
  - answered.
  - vm_compute. repeat constructor.
  - vm_compute. discriminate.
Defined.

(** * The lines searched *)

Lemma splitlines_no_boundary_bounded (n : nat) (s : str) :
  (length s <= n)%nat ->
  Forall (fun line => forallb (fun c => negb (is_linebreak c)) line = true)
         (splitlines s).
Proof.
  revert s; induction n as [|n IH]; intros s Hlen.
  - destruct s; [constructor | simpl in Hlen; lia].
  - destruct s as [|c r]; [constructor|]. simpl in Hlen.
    assert (Hr : Forall (fun line =>
                   forallb (fun c => negb (is_linebreak c)) line = true)
                   (splitlines r)) by (apply IH; lia).
    change (splitlines (c :: r))
      with (if is_linebreak c then
              [] :: (if c =? CR
                     then match r with
                          | d :: r' =>
                              if d =? LF then splitlines r' else splitlines r
                          | [] => []
                          end
                     else splitlines r)
            else match splitlines r with
                 | [] => [[c]]
                 | l :: ls => (c :: l) :: ls
                 end).
    destruct (is_linebreak c) eqn:Hc.
    + constructor; [reflexivity|].
      destruct (c =? CR); [|exact Hr].
      destruct r as [|d r']; [constructor|].
      destruct (d =? LF); [|exact Hr].
      apply IH. simpl in Hlen. lia.
    + destruct (splitlines r) as [|l ls].
      * constructor; [simpl; rewrite Hc; reflexivity | constructor].
      * inversion Hr; subst. constructor; [|assumption].
        simpl. rewrite Hc. simpl. assumption.
Qed.

(** X19: no line the search runs over holds a line boundary, whichever
    line endings the identifier text uses, and every search a run issues
    is for such a line, put after the field as typed. *)
Theorem identifiers_hold_no_line_boundary (d : Directory) (a : App) :
  Forall (fun entry => forallb (fun c => negb (is_linebreak c)) entry = true)
         (identifiers a)
  /\ forall f,
       In f (searches (trace (run d a))) -> ~ In f (searches (trace a)) ->
       exists entry,
         f = search_filter (search_field a) entry
         /\ forallb (fun c => negb (is_linebreak c)) entry = true.
Proof.
  assert (Hids : Forall (fun entry =>
                   forallb (fun c => negb (is_linebreak c)) entry = true)
                   (identifiers a)).
  { unfold identifiers. eapply splitlines_no_boundary_bounded. reflexivity. }
  split; [exact Hids|].
  intros f Hin Hold. destruct (run_searches d a) as [n Hn].
  rewrite Hn in Hin. apply in_app_or in Hin. destruct Hin as [Hin|Hin];
    [tauto|].
  apply in_map_iff in Hin. destruct Hin as (entry & <- & Hentry).
  exists entry. split; [reflexivity|].
  rewrite Forall_forall in Hids. apply Hids.
  rewrite <- (firstn_skipn n (identifiers a)). apply in_or_app. left.
  exact Hentry.
Qed.
